(** * Demand matching of the fleet API: availability, distance, alternatives

    A shallow embedding of [app/routers/demand.py]: the haversine distance,
    the availability predicate and the [check_demand] endpoint, together with
    the two tables it reads ([app/models.py]).

    Modelling conventions.
    - Python [str] values are [string]s of characters with code points below
      256. Python's [str.lower] folds the letters A-Z and the accented
      capitals of that range; SQLite's [lower] and [LIKE] fold the letters
      A-Z only.
    - Python [float] values (coordinates, radius, distances) are real numbers:
      the arithmetic is exact, there is no NaN and no infinity, and no
      rounding. In exact arithmetic [math.sqrt] and [math.asin] are applied
      inside their domains ([haversine_argument_bounds]); that rounding can
      push the argument of [math.asin] above 1, which makes it raise, is
      outside the model.
    - Python [int] values are [Z]; a [datetime.date] is its proleptic
      Gregorian ordinal ([date.toordinal()]), so that date comparison is
      comparison in [Z].
    - [None] is [option]'s [None].
    - The SQLAlchemy session is a read-only store of rows in table order; the
      queries a request issues are recorded in a log.
    - [column.ilike(p)] is what SQLAlchemy emits for SQLite, the default
      database: [lower(column) LIKE lower(p)], with no escape character. *)

From Stdlib Require Import List String Ascii Bool ZArith Lia Arith.
From Stdlib Require Import Reals Lra Permutation Sorted.
From Stdlib Require OrderedTypeEx.
Import ListNotations.

Local Open Scope string_scope.

(** ** Strings, case folding and the SQL pattern operator *)

Module Str.

(** SQLite's [lower] for one character: the letters A-Z. *)
Definition lower_ascii (c : ascii) : ascii :=
  let n := nat_of_ascii c in
  if (65 <=? n)%nat && (n <=? 90)%nat then ascii_of_nat (n + 32) else c.

(** SQLite's [lower(s)]. *)
Fixpoint lower (s : string) : string :=
  match s with
  | EmptyString => EmptyString
  | String c s' => String (lower_ascii c) (lower s')
  end.

(** Python's [c.lower()] for one character below 256: the letters A-Z and
    the capitals from 192 to 222, the multiplication sign 215 apart. *)
Definition py_lower_ascii (c : ascii) : ascii :=
  let n := nat_of_ascii c in
  if ((65 <=? n)%nat && (n <=? 90)%nat)
     || ((192 <=? n)%nat && (n <=? 222)%nat && negb (n =? 215)%nat)
  then ascii_of_nat (n + 32) else c.

(** Python's [s.lower()]. *)
Fixpoint py_lower (s : string) : string :=
  match s with
  | EmptyString => EmptyString
  | String c s' => String (py_lower_ascii c) (py_lower s')
  end.

(** SQL [s LIKE p] without an ESCAPE clause: [%] matches any run of
    characters, [_] exactly one, every other character itself. *)
Fixpoint like (p s : string) : bool :=
  match p with
  | EmptyString => match s with EmptyString => true | _ => false end
  | String c p' =>
      if Ascii.eqb c "%" then
        (fix skip (t : string) : bool :=
           like p' t ||
           match t with
           | EmptyString => false
           | String _ t' => skip t'
           end) s
      else
        match s with
        | EmptyString => false
        | String d s' => (Ascii.eqb c "_" || Ascii.eqb c d) && like p' s'
        end
  end.

(** [column.ilike(p)]: [lower(column) LIKE lower(p)]. *)
Definition ilike (column p : string) : bool := like (lower p) (lower column).

(** [lower(a) = lower(b)] in SQL: equal but for the case of A-Z. *)
Definition eq_nocase (a b : string) : bool := String.eqb (lower a) (lower b).

(** A pattern without wildcards. *)
Fixpoint plain (p : string) : bool :=
  match p with
  | EmptyString => true
  | String c p' => negb (Ascii.eqb c "%") && negb (Ascii.eqb c "_") && plain p'
  end.

(** [hay.startswith(needle)]. *)
Fixpoint prefix_of (needle hay : string) : bool :=
  match needle with
  | EmptyString => true
  | String c n' =>
      match hay with
      | EmptyString => false
      | String d h' => Ascii.eqb c d && prefix_of n' h'
      end
  end.

(** [needle in hay], the substring test. *)
Fixpoint contains (hay needle : string) : bool :=
  prefix_of needle hay ||
  match hay with
  | EmptyString => false
  | String _ h' => contains h' needle
  end.

(** [needle.lower() in hay.lower()]: case-insensitive substring. *)
Definition contains_nocase (hay needle : string) : bool :=
  contains (lower hay) (lower needle).

End Str.

(** ** The tables ([app/models.py]) *)

Definition date := Z.

Module Equipment.
Record t := mk {
  equipment_id : Z;
  equipment_name : string;
  camp_name : string;
  region : option string;
  status : string;
  next_maintenance_date : option date;
  start_date : option date;
  end_date : option date
}.
End Equipment.

Module Workshop.
Record t := mk {
  workshop_id : string;
  camp_name : string;
  location_lat : option R;
  location_lon : option R
}.
End Workshop.

Record Store := {
  workshops : list Workshop.t;
  equipment : list Equipment.t
}.

(** ** The session: queries against the store, logged *)

Inductive query :=
| SelectWorkshopFirst (camp_pattern : string)
| SelectEquipmentAll (camp_pattern name_pattern : string)
| SelectWorkshopAll.

Record HTTPException := { status_code : Z; detail : string }.

(** A computation that reads the store, logs the queries it issues and
    either raises or returns. *)
Definition DB (A : Type) : Type := Store -> list query * (HTTPException + A).

Definition ret {A} (a : A) : DB A := fun _ => ([], inr a).

Definition raise {A} (e : HTTPException) : DB A := fun _ => ([], inl e).

Definition bind {A B} (m : DB A) (k : A -> DB B) : DB B :=
  fun st =>
    match m st with
    | (l1, inl e) => (l1, inl e)
    | (l1, inr a) => let '(l2, r) := k a st in ((l1 ++ l2)%list, r)
    end.

Notation "x <- m ;; k" := (bind m (fun x => k))
  (at level 61, m at next level, right associativity).

(** A [for] loop whose body updates an accumulator. *)
Fixpoint for_each {A S} (l : list A) (body : A -> S -> DB S) (s : S) : DB S :=
  match l with
  | [] => ret s
  | x :: l' => s' <- body x s ;; for_each l' body s'
  end.

(** [db.query(Workshop).filter(Workshop.camp_name.ilike(p)).first()] *)
Definition workshop_first (p : string) : DB (option Workshop.t) :=
  fun st =>
    ([SelectWorkshopFirst p],
     inr (find (fun w => Str.ilike (Workshop.camp_name w) p) (workshops st))).

(** [db.query(Equipment).filter(Equipment.camp_name.ilike(c))
      .filter(Equipment.equipment_name.ilike(n)).all()] *)
Definition equipment_all (c n : string) : DB (list Equipment.t) :=
  fun st =>
    ([SelectEquipmentAll c n],
     inr (filter (fun e => Str.ilike (Equipment.equipment_name e) n)
            (filter (fun e => Str.ilike (Equipment.camp_name e) c)
               (equipment st)))).

(** [db.query(Workshop).all()] *)
Definition workshop_all : DB (list Workshop.t) :=
  fun st => ([SelectWorkshopAll], inr (workshops st)).

(** ** Haversine (km) *)

Local Open Scope R_scope.

(** [math.radians] *)
Definition radians (x : R) : R := x * (PI / 180).

(** The formula is evaluated in exact arithmetic, where the argument of
    [asin] cannot leave [0, 1]. Python evaluates it in binary64: close to
    antipodal points the rounded argument can exceed 1, and [math.asin] then
    raises [ValueError]; that path has no counterpart here. *)
Definition haversine_km (lat1 lon1 lat2 lon2 : option R) : option R :=
  match lat1, lon1, lat2, lon2 with
  | Some lat1, Some lon1, Some lat2, Some lon2 =>
      let R := 6371 in
      let p1 := radians lat1 in
      let p2 := radians lat2 in
      let dphi := radians (lat2 - lat1) in
      let dlmb := radians (lon2 - lon1) in
      let a := sin (dphi / 2) ^ 2 + cos p1 * cos p2 * sin (dlmb / 2) ^ 2 in
      Some (2 * R * asin (sqrt a))
  | _, _, _, _ => None
  end.

(** The comparisons [<], [>] and [==] on floats, as booleans. *)
Definition Rltb (x y : R) : bool := if Rlt_dec x y then true else false.
Definition Rgtb (x y : R) : bool := Rltb y x.
Definition Reqb (x y : R) : bool := if Req_dec_T x y then true else false.

(** [round(x)]: the nearest integer, a tie going to the even one. *)
Definition round_half_even (x : R) : Z :=
  let f := Int_part x in
  let r := x - IZR f in
  if Rlt_dec r (1 / 2) then f
  else if Rlt_dec (1 / 2) r then (f + 1)%Z
  else if Z.even f then f else (f + 1)%Z.

(** [round(x, 1)] *)
Definition round1 (x : R) : R := IZR (round_half_even (x * 10)) / 10.

Local Close Scope R_scope.

(** ** The response of [check_demand] *)

Module Requested.
Record t := mk {
  equipment_name : string;
  start_date : date;
  end_date : date;
  quantity : Z
}.
End Requested.

Module Availability.
Record t := mk { available : Z; meets_requirement : bool }.
End Availability.

Module LatLon.
Record t := mk { lat : option R; lon : option R }.
End LatLon.

Module Ui.
Record t := mk { show_map : bool; center : LatLon.t; radius_km : R }.
End Ui.

Module Counts.
Record t := mk { ready_to_use : Z; under_maintenance : Z }.
End Counts.

Module Alternative.
Record t := mk {
  camp_name : string;
  workshop_id : string;
  distance_km : R;
  location : LatLon.t;
  counts : Counts.t
}.
End Alternative.

Module Result.
Record t := mk {
  camp_name : string;
  requested : Requested.t;
  availability : Availability.t;
  ui : Ui.t;
  alternatives : list Alternative.t
}.

(** [result["alternatives"] = alts] *)
Definition set_alternatives (r : t) (alts : list Alternative.t) : t :=
  mk (camp_name r) (requested r) (availability r) (ui r) alts.
End Result.

(** ** [list.sort(key=...)]

    Python's sort is stable and compares keys with [<] only. It is modelled
    as a stable insertion sort; [sort_unique] below shows that the list a
    stable sort returns does not depend on how it sorts. *)

Section Sort.
Context {A K : Type} (key : A -> K) (lt : K -> K -> bool).

(** [x] goes after the elements whose key is smaller, before the others. *)
Fixpoint insert (x : A) (l : list A) : list A :=
  match l with
  | [] => [x]
  | y :: l' => if lt (key y) (key x) then y :: insert x l' else x :: y :: l'
  end.

Fixpoint sort (l : list A) : list A :=
  match l with
  | [] => []
  | x :: l' => insert x (sort l')
  end.

(** [x] may stand before [y]: the key of [y] is not smaller. *)
Definition key_le (x y : A) : Prop := lt (key y) (key x) = false.

(** [lt] does not separate [x] and [y]. *)
Definition tied (x y : A) : bool :=
  negb (lt (key x) (key y)) && negb (lt (key y) (key x)).
End Sort.

(** The key [(x["distance_km"], -x["counts"]["ready_to_use"])] and Python's
    [<] on such tuples: the first components decide unless they are equal. *)
Definition alt_key (x : Alternative.t) : R * Z :=
  (Alternative.distance_km x, (- Counts.ready_to_use (Alternative.counts x))%Z).

Definition tuple_lt (k1 k2 : R * Z) : bool :=
  if Reqb (fst k1) (fst k2) then (snd k1 <? snd k2)%Z
  else Rltb (fst k1) (fst k2).

(** ** [check_demand] *)

Section CheckDemand.
Variables (camp_name equipment_name : string).
Variables (start_date end_date : date).
Variable quantity : Z.
Variable radius_km : R.

(** The closure [is_available]. *)
Definition is_available (e : Equipment.t) : bool :=
  if negb (String.eqb (Equipment.status e) "ReadyToUse") then false
  else
    match Equipment.start_date e, Equipment.end_date e with
    | Some s, Some t =>
        let overlap := (s <=? end_date)%Z && (start_date <=? t)%Z in
        negb overlap
    | _, _ => true
    end.

(** One turn of the counting loop over the equipment of a candidate camp;
    the state is [(ready, maint)]. *)
Definition count_step (c : Z * Z) (e : Equipment.t) : Z * Z :=
  let '(ready, maint) := c in
  if String.eqb (Equipment.status e) "UnderMaintenance" then
    (ready, (maint + 1)%Z)
  else if String.eqb (Equipment.status e) "ReadyToUse" && is_available e then
    ((ready + 1)%Z, maint)
  else (ready, maint).

Definition count_loop (eq : list Equipment.t) : Z * Z :=
  fold_left count_step eq (0%Z, 0%Z).

(** The body of the loop over [all_ws]; [continue] leaves [alts] as it is. *)
Definition alt_body (home_ws ws : Workshop.t) (alts : list Alternative.t)
  : DB (list Alternative.t) :=
  if String.eqb (Str.py_lower (Workshop.camp_name ws))
       (Str.py_lower camp_name)
  then ret alts
  else
    match haversine_km (Workshop.location_lat home_ws)
                       (Workshop.location_lon home_ws)
                       (Workshop.location_lat ws)
                       (Workshop.location_lon ws) with
    | None => ret alts
    | Some dist =>
        if Rgtb dist radius_km then ret alts
        else
          eq <- equipment_all (Workshop.camp_name ws) equipment_name ;;
          let '(ready, maint) := count_loop eq in
          ret (alts ++
               [Alternative.mk
                  (Workshop.camp_name ws)
                  (Workshop.workshop_id ws)
                  (round1 dist)
                  (LatLon.mk (Workshop.location_lat ws)
                             (Workshop.location_lon ws))
                  (Counts.mk ready maint)])%list
    end.

Definition check_demand : DB Result.t :=
  home_ws <- workshop_first camp_name ;;
  match home_ws with
  | None =>
      raise {| status_code := 404;
               detail := "Camp '" ++ camp_name
                         ++ "' not found in workshops table" |}
  | Some home_ws =>
      q_home <- equipment_all camp_name equipment_name ;;
      let home_elems := filter is_available q_home in
      let available_home := Z.of_nat (List.length home_elems) in
      let meets := (available_home >=? quantity)%Z in
      let result :=
        Result.mk
          camp_name
          (Requested.mk equipment_name start_date end_date quantity)
          (Availability.mk available_home meets)
          (Ui.mk (negb meets)
                 (LatLon.mk (Workshop.location_lat home_ws)
                            (Workshop.location_lon home_ws))
                 radius_km)
          [] in
      if meets then ret result
      else
        all_ws <- workshop_all ;;
        alts <- for_each all_ws (alt_body home_ws) [] ;;
        let alts := sort alt_key tuple_lt alts in
        ret (Result.set_alternatives result alts)
  end.

(** *** The pieces of a run, named for the statements below *)

(** The row the first query returns. *)
Definition home_workshop (st : Store) : option Workshop.t :=
  find (fun w => Str.ilike (Workshop.camp_name w) camp_name) (workshops st).

(** The rows the equipment query returns for the camp pattern [camp]. *)
Definition matching (camp : string) (st : Store) : list Equipment.t :=
  filter (fun e => Str.ilike (Equipment.equipment_name e) equipment_name)
    (filter (fun e => Str.ilike (Equipment.camp_name e) camp) (equipment st)).

Definition available_home (st : Store) : Z :=
  Z.of_nat (List.length (filter is_available (matching camp_name st))).

Definition meets (st : Store) : bool := (available_home st >=? quantity)%Z.

(** The response before the alternatives are filled in. *)
Definition home_result (home_ws : Workshop.t) (st : Store) : Result.t :=
  Result.mk
    camp_name
    (Requested.mk equipment_name start_date end_date quantity)
    (Availability.mk (available_home st) (meets st))
    (Ui.mk (negb (meets st))
           (LatLon.mk (Workshop.location_lat home_ws)
                      (Workshop.location_lon home_ws))
           radius_km)
    [].

(** What one turn of the loop appends for [ws], if anything. *)
Definition alt_of (home_ws : Workshop.t) (st : Store) (ws : Workshop.t)
  : option Alternative.t :=
  if String.eqb (Str.py_lower (Workshop.camp_name ws))
       (Str.py_lower camp_name)
  then None
  else
    match haversine_km (Workshop.location_lat home_ws)
                       (Workshop.location_lon home_ws)
                       (Workshop.location_lat ws)
                       (Workshop.location_lon ws) with
    | None => None
    | Some dist =>
        if Rgtb dist radius_km then None
        else
          let c := count_loop (matching (Workshop.camp_name ws) st) in
          Some (Alternative.mk
                  (Workshop.camp_name ws)
                  (Workshop.workshop_id ws)
                  (round1 dist)
                  (LatLon.mk (Workshop.location_lat ws)
                             (Workshop.location_lon ws))
                  (Counts.mk (fst c) (snd c)))
    end.

(** The equipment query one turn of the loop issues, if any. *)
Definition alt_queries (home_ws : Workshop.t) (st : Store) (ws : Workshop.t)
  : list query :=
  match alt_of home_ws st ws with
  | None => []
  | Some _ => [SelectEquipmentAll (Workshop.camp_name ws) equipment_name]
  end.

(** The three tests a workshop passes to become an alternative: another camp
    name (both lower-cased by [str.lower]), a known distance, within the
    radius. *)
Definition candidate (home_ws ws : Workshop.t) : bool :=
  negb (String.eqb (Str.py_lower (Workshop.camp_name ws))
          (Str.py_lower camp_name))
  && match haversine_km (Workshop.location_lat home_ws)
                        (Workshop.location_lon home_ws)
                        (Workshop.location_lat ws)
                        (Workshop.location_lon ws) with
     | Some dist => negb (Rgtb dist radius_km)
     | None => false
     end.
End CheckDemand.

(** ** Vocabulary of the statements *)

(** The defined values of a partial map over a list, in order. *)
Fixpoint map_some {A B} (f : A -> option B) (l : list A) : list B :=
  match l with
  | [] => []
  | x :: l' =>
      match f x with
      | Some y => y :: map_some f l'
      | None => map_some f l'
      end
  end.

(** The number of elements of [l] that satisfy [p], as a Python [int]. *)
Definition count_if {A} (p : A -> bool) (l : list A) : Z :=
  Z.of_nat (List.length (filter p l)).

(** The exception of the missing camp. *)
Definition not_found (camp_name : string) : HTTPException :=
  {| status_code := 404;
     detail := "Camp '" ++ camp_name ++ "' not found in workshops table" |}.

(** The two buckets of the counting loop. *)
Definition ready_pred (a b : date) (e : Equipment.t) : bool :=
  String.eqb (Equipment.status e) "ReadyToUse" && is_available a b e.

Definition maint_pred (e : Equipment.t) : bool :=
  String.eqb (Equipment.status e) "UnderMaintenance".

(** [x] may stand before [y] in the ranking: it is nearer, or as near and
    has at least as many units ready. *)
Definition alt_le (x y : Alternative.t) : Prop :=
  (Alternative.distance_km x < Alternative.distance_km y)%R \/
  (Alternative.distance_km x = Alternative.distance_km y /\
   (Counts.ready_to_use (Alternative.counts y)
    <= Counts.ready_to_use (Alternative.counts x))%Z).

(** The entries at distance [d] with [k] units ready. *)
Definition same_key (d : R) (k : Z) (x : Alternative.t) : bool :=
  Reqb (Alternative.distance_km x) d
  && (Counts.ready_to_use (Alternative.counts x) =? k)%Z.

(** The count the home camp reports, as the queries select it: rows whose
    camp name and equipment name match the request as [ilike] patterns and
    that are available in the window. *)
Definition pattern_count (c n : string) (s e : date) (st : Store) : Z :=
  count_if (fun x => Str.ilike (Equipment.camp_name x) c
                     && Str.ilike (Equipment.equipment_name x) n
                     && is_available s e x)
           (equipment st).

(** The count with both names matched as case-insensitive substrings. *)
Definition substring_count (c n : string) (s e : date) (st : Store) : Z :=
  count_if (fun x => Str.contains_nocase (Equipment.camp_name x) c
                     && Str.contains_nocase (Equipment.equipment_name x) n
                     && is_available s e x)
           (equipment st).

(** ** Example stores *)

(** Dates of the scenarios, as ordinals. *)
Definition d_2024_01_01 : date := 738886%Z.
Definition d_2024_01_05 : date := 738890%Z.
Definition d_2024_01_10 : date := 738895%Z.
Definition d_2024_01_15 : date := 738900%Z.
Definition d_2024_01_20 : date := 738905%Z.
Definition d_2024_02_01 : date := 738917%Z.
Definition d_2024_02_05 : date := 738921%Z.

Definition excavator (id : Z) (camp status : string) (s t : option date)
  : Equipment.t :=
  Equipment.mk id "Excavator" camp None status None s t.

(** Scenario A: one camp at (10, 20) with five excavators ready. *)
Definition ws_camp1 : Workshop.t :=
  Workshop.mk "WS1" "Camp1" (Some 10%R) (Some 20%R).

Definition store_a : Store :=
  {| workshops := [ws_camp1];
     equipment := [excavator 1 "Camp1" "ReadyToUse" None None;
                   excavator 2 "Camp1" "ReadyToUse" None None;
                   excavator 3 "Camp1" "ReadyToUse" None None;
                   excavator 4 "Camp1" "ReadyToUse" None None;
                   excavator 5 "Camp1" "ReadyToUse" None None] |}.

Definition result_a : Result.t :=
  Result.mk "Camp1"
    (Requested.mk "Excavator" d_2024_01_01 d_2024_01_10 3)
    (Availability.mk 5 true)
    (Ui.mk false (LatLon.mk (Some 10%R) (Some 20%R)) 15%R)
    [].

(** Scenario B: the home camp is short; two camps at the same place have
    units, a third has no latitude. *)
Definition ws_camp2 : Workshop.t :=
  Workshop.mk "WS2" "Camp2" (Some 10%R) (Some 20%R).
Definition ws_camp3 : Workshop.t :=
  Workshop.mk "WS3" "Camp3" (Some 10%R) (Some 20%R).
Definition ws_camp4 : Workshop.t :=
  Workshop.mk "WS4" "Camp4" None (Some 20%R).

Definition store_b : Store :=
  {| workshops := [ws_camp1; ws_camp2; ws_camp3; ws_camp4];
     equipment :=
       [excavator 1 "Camp1" "ReadyToUse" None None;
        excavator 2 "Camp1" "ReadyToUse" None None;
        excavator 3 "Camp2" "ReadyToUse" None None;
        excavator 4 "Camp2" "UnderMaintenance" None None;
        excavator 5 "Camp2" "Allocated" None None;
        excavator 6 "Camp3" "ReadyToUse" None None;
        excavator 7 "Camp3" "ReadyToUse" (Some d_2024_01_05) None;
        excavator 8 "Camp3" "ReadyToUse"
          (Some d_2024_01_05) (Some d_2024_01_15);
        excavator 9 "Camp4" "ReadyToUse" None None] |}.

Definition alt_camp2 : Alternative.t :=
  Alternative.mk "Camp2" "WS2" 0%R (LatLon.mk (Some 10%R) (Some 20%R))
    (Counts.mk 1 1).
Definition alt_camp3 : Alternative.t :=
  Alternative.mk "Camp3" "WS3" 0%R (LatLon.mk (Some 10%R) (Some 20%R))
    (Counts.mk 2 0).

Definition result_b : Result.t :=
  Result.mk "Camp1"
    (Requested.mk "Excavator" d_2024_01_10 d_2024_01_20 5)
    (Availability.mk 2 false)
    (Ui.mk true (LatLon.mk (Some 10%R) (Some 20%R)) 15%R)
    [alt_camp3; alt_camp2].

(** The response of scenario B for a search radius [r]. *)
Definition result_b_at (r : R) : Result.t :=
  Result.mk "Camp1"
    (Requested.mk "Excavator" d_2024_01_10 d_2024_01_20 5)
    (Availability.mk 2 false)
    (Ui.mk true (LatLon.mk (Some 10%R) (Some 20%R)) r)
    [alt_camp3; alt_camp2].

(** A home camp without latitude, next to a camp with units. *)
Definition ws_nolat : Workshop.t := Workshop.mk "WS0" "Camp0" None (Some 20%R).

Definition store_c : Store :=
  {| workshops := [ws_nolat; ws_camp2];
     equipment := [excavator 3 "Camp2" "ReadyToUse" None None] |}.

Definition result_c : Result.t :=
  Result.mk "Camp0"
    (Requested.mk "Excavator" d_2024_01_10 d_2024_01_20 1)
    (Availability.mk 0 false)
    (Ui.mk true (LatLon.mk None (Some 20%R)) 100000%R)
    [].

(** ** [list_equipment] ([app/routers/equipment.py]) *)

(** An optional [.filter(...)]: applied when the condition holds a value. *)
Definition where_if {A P} (cond : option P) (pred : P -> A -> bool)
           (q : list A) : list A :=
  match cond with
  | Some p => filter (pred p) q
  | None => q
  end.

(** [if s:] for an optional string: [None] and the empty string are false. *)
Definition nonempty (s : option string) : option string :=
  match s with
  | Some EmptyString => None
  | _ => s
  end.

(** SQL comparisons with a nullable column: NULL satisfies none. *)
Definition null_or {V} (col : option V) (test : V -> bool) : bool :=
  match col with
  | Some v => test v
  | None => false
  end.

Module ListEquipment.
(** The query parameters of the endpoint. *)
Record params := mk {
  equipment_id : option Z;
  equipment_name : option string;
  camp_name : option string;
  region : option string;
  status : option string;
  start_date_from : option date;
  start_date_to : option date;
  end_date_from : option date;
  end_date_to : option date;
  next_maintenance_from : option date;
  next_maintenance_to : option date
}.

(** No parameter given. *)
Definition none : params :=
  mk None None None None None None None None None None None.
End ListEquipment.

(** [f"%{text}%"] *)
Definition substring_pattern (text : string) : string := "%" ++ text ++ "%".

(** The rows the query of [list_equipment] selects, in the order it returns
    them. *)
Definition list_equipment (p : ListEquipment.params) (st : Store)
  : list Equipment.t :=
  let q := equipment st in
  let q := where_if (ListEquipment.equipment_id p)
             (fun i e => (Equipment.equipment_id e =? i)%Z) q in
  let q := where_if (nonempty (ListEquipment.equipment_name p))
             (fun x e => Str.ilike (Equipment.equipment_name e)
                           (substring_pattern x)) q in
  let q := where_if (nonempty (ListEquipment.camp_name p))
             (fun x e => Str.ilike (Equipment.camp_name e)
                           (substring_pattern x)) q in
  let q := where_if (nonempty (ListEquipment.region p))
             (fun x e => null_or (Equipment.region e)
                           (fun r => Str.ilike r (substring_pattern x))) q in
  let q := where_if (nonempty (ListEquipment.status p))
             (fun x e => String.eqb (Equipment.status e) x) q in
  let q := where_if (ListEquipment.start_date_from p)
             (fun d e => null_or (Equipment.start_date e)
                           (fun v => (d <=? v)%Z)) q in
  let q := where_if (ListEquipment.start_date_to p)
             (fun d e => null_or (Equipment.start_date e)
                           (fun v => (v <=? d)%Z)) q in
  let q := where_if (ListEquipment.end_date_from p)
             (fun d e => null_or (Equipment.end_date e)
                           (fun v => (d <=? v)%Z)) q in
  let q := where_if (ListEquipment.end_date_to p)
             (fun d e => null_or (Equipment.end_date e)
                           (fun v => (v <=? d)%Z)) q in
  let q := where_if (ListEquipment.next_maintenance_from p)
             (fun d e => null_or (Equipment.next_maintenance_date e)
                           (fun v => (d <=? v)%Z)) q in
  let q := where_if (ListEquipment.next_maintenance_to p)
             (fun d e => null_or (Equipment.next_maintenance_date e)
                           (fun v => (v <=? d)%Z)) q in
  sort Equipment.equipment_id Z.ltb q.




(** What each supplied parameter demands of a returned row. *)
Definition accepts (p : ListEquipment.params) (e : Equipment.t) : Prop :=
  (forall i, ListEquipment.equipment_id p = Some i ->
             Equipment.equipment_id e = i)
  /\ (forall x, ListEquipment.equipment_name p = Some x -> x <> "" ->
        Str.ilike (Equipment.equipment_name e) (substring_pattern x) = true)
  /\ (forall x, ListEquipment.camp_name p = Some x -> x <> "" ->
        Str.ilike (Equipment.camp_name e) (substring_pattern x) = true)
  /\ (forall x, ListEquipment.region p = Some x -> x <> "" ->
        exists r, Equipment.region e = Some r /\
                  Str.ilike r (substring_pattern x) = true)
  /\ (forall x, ListEquipment.status p = Some x -> x <> "" ->
        Equipment.status e = x)
  /\ (forall d, ListEquipment.start_date_from p = Some d ->
        exists v, Equipment.start_date e = Some v /\ (d <= v)%Z)
  /\ (forall d, ListEquipment.start_date_to p = Some d ->
        exists v, Equipment.start_date e = Some v /\ (v <= d)%Z)
  /\ (forall d, ListEquipment.end_date_from p = Some d ->
        exists v, Equipment.end_date e = Some v /\ (d <= v)%Z)
  /\ (forall d, ListEquipment.end_date_to p = Some d ->
        exists v, Equipment.end_date e = Some v /\ (v <= d)%Z)
  /\ (forall d, ListEquipment.next_maintenance_from p = Some d ->
        exists v, Equipment.next_maintenance_date e = Some v /\ (d <= v)%Z)
  /\ (forall d, ListEquipment.next_maintenance_to p = Some d ->
        exists v, Equipment.next_maintenance_date e = Some v /\ (v <= d)%Z).

(** [p'] asks for everything [p] asks for. *)
Definition narrows (p' p : ListEquipment.params) : Prop :=
  (forall i, ListEquipment.equipment_id p = Some i ->
             ListEquipment.equipment_id p' = Some i)
  /\ (forall x, nonempty (ListEquipment.equipment_name p) = Some x ->
                ListEquipment.equipment_name p' = Some x)
  /\ (forall x, nonempty (ListEquipment.camp_name p) = Some x ->
                ListEquipment.camp_name p' = Some x)
  /\ (forall x, nonempty (ListEquipment.region p) = Some x ->
                ListEquipment.region p' = Some x)
  /\ (forall x, nonempty (ListEquipment.status p) = Some x ->
                ListEquipment.status p' = Some x)
  /\ (forall d, ListEquipment.start_date_from p = Some d ->
                ListEquipment.start_date_from p' = Some d)
  /\ (forall d, ListEquipment.start_date_to p = Some d ->
                ListEquipment.start_date_to p' = Some d)
  /\ (forall d, ListEquipment.end_date_from p = Some d ->
                ListEquipment.end_date_from p' = Some d)
  /\ (forall d, ListEquipment.end_date_to p = Some d ->
                ListEquipment.end_date_to p' = Some d)
  /\ (forall d, ListEquipment.next_maintenance_from p = Some d ->
                ListEquipment.next_maintenance_from p' = Some d)
  /\ (forall d, ListEquipment.next_maintenance_to p = Some d ->
                ListEquipment.next_maintenance_to p' = Some d).

(** The test an optional filter applies to a row. *)
Definition test_if {A P} (cond : option P) (pred : P -> A -> bool) (e : A)
  : bool :=
  match cond with
  | Some p => pred p e
  | None => true
  end.

(** Two searches: equipment whose name contains "CAV", and among it the
    equipment whose camp name contains "2". *)
Definition excavator_search : ListEquipment.params :=
  ListEquipment.mk None (Some "CAV") None None None None None None None None
    None.

Definition excavator_search_camp2 : ListEquipment.params :=
  ListEquipment.mk None (Some "CAV") (Some "2") None None None None None None
    None None.

(** ** Python dicts with string keys

    A dict is the list of its items, keys distinct; [d.get(k)] and [k in d]
    read the item of [k], an assignment replaces it or adds one. *)

Definition dict (V : Type) := list (string * V).

Fixpoint dict_get {V} (d : dict V) (k : string) : option V :=
  match d with
  | [] => None
  | (k', v) :: d' => if String.eqb k' k then Some v else dict_get d' k
  end.

Fixpoint dict_set {V} (k : string) (v : V) (d : dict V) : dict V :=
  match d with
  | [] => [(k, v)]
  | (k', v') :: d' =>
      if String.eqb k' k then (k', v) :: d' else (k', v') :: dict_set k v d'
  end.

(** ** [_apply_updates] ([app/crud.py])

    The object is the dict of its attributes; a value is [None] for Python's
    [None] and [Some v] otherwise. The loop assigns in place; the model
    returns the object after the loop. *)
Definition _apply_updates {V} (obj : dict (option V)) (data : dict (option V))
           (allowed : list string) : dict (option V) :=
  fold_left
    (fun obj k =>
       match dict_get data k with
       | Some (Some v) => dict_set k (Some v) obj
       | _ => obj
       end)
    allowed obj.

(** ** [SimpleAuth] ([app/admin.py])

    Each method takes the submitted form or the session and returns its
    result with the session it leaves. *)
Module SimpleAuth.

Definition login (form : dict string) (session : dict string)
  : bool * dict string :=
  if match dict_get form "username" with
     | Some u => String.eqb u "admin"
     | None => false
     end
     && match dict_get form "password" with
        | Some p => String.eqb p "secret"
        | None => false
        end
  then (true, dict_set "user" "admin" session)
  else (false, session).

Definition logout (session : dict string) : bool * dict string := (true, []).

(** [bool(request.session.get("user"))] *)
Definition authenticate (session : dict string) : bool :=
  match dict_get session "user" with
  | Some u => negb (String.eqb u "")
  | None => false
  end.

(** The requests that change a session. *)
Inductive request :=
| Login (form : dict string)
| Logout.

Definition step (session : dict string) (r : request) : dict string :=
  match r with
  | Login form => snd (login form session)
  | Logout => snd (logout session)
  end.

(** A form with the accepted credentials. *)
Definition accepted (form : dict string) : Prop :=
  dict_get form "username" = Some "admin"
  /\ dict_get form "password" = Some "secret".

Definition is_login (r : request) : Prop :=
  match r with Login _ => True | Logout => False end.

End SimpleAuth.

(** ** [ensure_columns] ([app/utils.py]) *)

(** [sep.join(l)] *)
Fixpoint join (sep : string) (l : list string) : string :=
  match l with
  | [] => ""
  | [x] => x
  | x :: l' => x ++ sep ++ join sep l'
  end.

(** [sorted(set(required) - set(columns))]: the required labels that are
    not columns, each once, in ascending order. *)
Definition missing_columns (columns required : list string) : list string :=
  sort (fun x : string => x) String.ltb
    (nodup string_dec
       (filter (fun r => negb (existsb (String.eqb r) columns)) required)).

(** The function returns [None] or raises. *)
Definition ensure_columns (columns required : list string)
  : HTTPException + unit :=
  match missing_columns columns required with
  | [] => inr tt
  | missing =>
      inl {| status_code := 400;
             detail := "Missing required columns: " ++ join ", " missing |}
  end.

(** ** Readings of "the matching records at a camp" *)

(** The rows of a camp (its name compared whole, the case of A-Z ignored)
    whose equipment name matches the requested type as a LIKE pattern. *)
Definition camp_matching (n camp : string) (st : Store) : list Equipment.t :=
  filter (fun y => Str.eq_nocase (Equipment.camp_name y) camp
                   && Str.ilike (Equipment.equipment_name y) n)
         (equipment st).

(** The rows whose camp name and equipment name contain the given ones,
    letter case ignored. *)
Definition substring_matching (n camp : string) (st : Store)
  : list Equipment.t :=
  filter (fun y => Str.contains_nocase (Equipment.camp_name y) camp
                   && Str.contains_nocase (Equipment.equipment_name y) n)
         (equipment st).

(** Scenario B asked for the type "Exc". *)
Definition alt_camp2_exc : Alternative.t :=
  Alternative.mk "Camp2" "WS2" 0%R (LatLon.mk (Some 10%R) (Some 20%R))
    (Counts.mk 0 0).
Definition alt_camp3_exc : Alternative.t :=
  Alternative.mk "Camp3" "WS3" 0%R (LatLon.mk (Some 10%R) (Some 20%R))
    (Counts.mk 0 0).

Definition result_b_exc : Result.t :=
  Result.mk "Camp1"
    (Requested.mk "Exc" d_2024_01_10 d_2024_01_20 5)
    (Availability.mk 0 false)
    (Ui.mk true (LatLon.mk (Some 10%R) (Some 20%R)) 15%R)
    [alt_camp2_exc; alt_camp3_exc].

(** * Supporting lemmas *)

(** ** Patterns *)

Example like_examples :
  Str.like "camp%" "camp1" = true /\ Str.like "exc" "excavator" = false
  /\ Str.like "%cav%" "excavator" = true /\ Str.like "camp_" "camp1" = true
  /\ Str.like "camp_" "camp12" = false /\ Str.like "%" "" = true
  /\ Str.ilike "Camp1" "cAMP1" = true /\ Str.ilike "Excavator" "Exc" = false
  /\ Str.contains_nocase "Excavator" "CAV" = true.
Proof. repeat split. Qed.

Lemma lower_ascii_wild c :
  Ascii.eqb (Str.lower_ascii c) "%" = Ascii.eqb c "%"
  /\ Ascii.eqb (Str.lower_ascii c) "_" = Ascii.eqb c "_".
Proof. destruct c as [[] [] [] [] [] [] [] []]; split; reflexivity. Qed.

Lemma plain_lower p : Str.plain (Str.lower p) = Str.plain p.
Proof.
  induction p as [|c p IH]; [reflexivity|]. simpl.
  destruct (lower_ascii_wild c) as [-> ->]. now rewrite IH.
Qed.

Lemma like_plain p : Str.plain p = true -> forall s, Str.like p s = String.eqb p s.
Proof.
  induction p as [|c p IH]; intros Hp s.
  - now destruct s.
  - simpl in Hp. apply andb_true_iff in Hp as [Hc Hp].
    apply andb_true_iff in Hc as [Hc1 Hc2].
    apply negb_true_iff in Hc1, Hc2. simpl. rewrite Hc1.
    destruct s as [|d s]; [reflexivity|].
    rewrite Hc2, (IH Hp). reflexivity.
Qed.

(** A requested name without wildcards matches a column exactly when the two
    are equal once lower-cased. *)
Lemma ilike_plain column p :
  Str.plain p = true -> Str.ilike column p = Str.eq_nocase column p.
Proof.
  intros Hp. unfold Str.ilike, Str.eq_nocase.
  rewrite like_plain by now rewrite plain_lower.
  apply String.eqb_sym.
Qed.

(** Python's fold is coarser than SQLite's: names that SQLite's [lower]
    identifies are identified by [str.lower]. *)
Lemma py_lower_ascii_lower c :
  Str.py_lower_ascii (Str.lower_ascii c) = Str.py_lower_ascii c.
Proof. destruct c as [[] [] [] [] [] [] [] []]; reflexivity. Qed.

Lemma py_lower_lower s : Str.py_lower (Str.lower s) = Str.py_lower s.
Proof.
  induction s as [|c s IH]; simpl; [reflexivity|].
  now rewrite py_lower_ascii_lower, IH.
Qed.

Lemma lower_eq_py_lower a b :
  Str.lower a = Str.lower b -> Str.py_lower a = Str.py_lower b.
Proof.
  intros H. rewrite <- (py_lower_lower a), <- (py_lower_lower b).
  now rewrite H.
Qed.

(** ** The loop and the run in closed form *)

Lemma for_each_alt_body c n s e r home st wss :
  forall alts,
    for_each wss (alt_body c n s e r home) alts st
    = (flat_map (alt_queries c n s e r home st) wss,
       inr (alts ++ map_some (alt_of c n s e r home st) wss)%list).
Proof.
  induction wss as [|ws wss IH]; intros alts; simpl.
  - unfold ret. now rewrite app_nil_r.
  - unfold alt_queries, alt_of, alt_body, bind.
    destruct (String.eqb _ _).
    + simpl. rewrite IH. reflexivity.
    + destruct (haversine_km _ _ _ _) as [dist|].
      * destruct (Rgtb dist r).
        -- simpl. rewrite IH. reflexivity.
        -- unfold equipment_all at 1.
           fold (matching n (Workshop.camp_name ws) st).
           destruct (count_loop _ _ _) as [ready maint] eqn:Hc.
           simpl. rewrite IH. simpl. rewrite <- app_assoc. reflexivity.
      * simpl. rewrite IH. reflexivity.
Qed.

Lemma check_demand_run c n s e q r st :
  check_demand c n s e q r st
  = match home_workshop c st with
    | None => ([SelectWorkshopFirst c], inl (not_found c))
    | Some home =>
        let base := home_result c n s e q r home st in
        if meets c n s e q st then
          ([SelectWorkshopFirst c; SelectEquipmentAll c n], inr base)
        else
          (SelectWorkshopFirst c
             :: SelectEquipmentAll c n
             :: SelectWorkshopAll
             :: flat_map (alt_queries c n s e r home st) (workshops st),
           inr (Result.set_alternatives base
                  (sort alt_key tuple_lt
                     (map_some (alt_of c n s e r home st) (workshops st)))))
    end.
Proof.
  unfold check_demand, bind at 1, workshop_first, home_workshop.
  destruct (find _ (workshops st)) as [home|]; [|reflexivity].
  unfold bind at 1, equipment_all at 1.
  fold (matching n c st).
  fold (available_home c n s e st).
  fold (meets c n s e q st).
  fold (home_result c n s e q r home st).
  destruct (meets _ _ _ _ _ _) eqn:Hm.
  - reflexivity.
  - unfold bind, workshop_all. rewrite for_each_alt_body. unfold ret.
    simpl. rewrite app_nil_r. reflexivity.
Qed.

(** ** The stable insertion sort *)

Section SortFacts.
Context {A K : Type} (key : A -> K) (lt : K -> K -> bool).

Lemma insert_perm x l : Permutation (insert key lt x l) (x :: l).
Proof.
  induction l as [|y l IH]; simpl; [reflexivity|].
  destruct (lt (key y) (key x)); [|reflexivity].
  rewrite IH. apply perm_swap.
Qed.

Lemma sort_perm l : Permutation (sort key lt l) l.
Proof.
  induction l as [|x l IH]; simpl; [constructor|].
  rewrite insert_perm. now constructor.
Qed.

Lemma insert_Forall (P : A -> Prop) x l :
  P x -> Forall P l -> Forall P (insert key lt x l).
Proof.
  intros Hx Hl. induction Hl as [|y l Hy Hl IH]; simpl.
  - now constructor.
  - destruct (lt (key y) (key x)); repeat constructor; assumption.
Qed.

(** Elements that [lt] does not separate keep their order. *)
Lemma insert_filter (P : A -> bool) x l :
  (forall a b, P a = true -> P b = true -> lt (key b) (key a) = false) ->
  filter P (insert key lt x l) = filter P (x :: l).
Proof.
  intros P_tied.
  induction l as [|y l IH]; [reflexivity|].
  simpl insert. destruct (lt (key y) (key x)) eqn:E; [|reflexivity].
  simpl in *. rewrite IH.
  destruct (P x) eqn:Px, (P y) eqn:Py; try reflexivity.
  rewrite (P_tied x y Px Py) in E. discriminate.
Qed.

Lemma sort_filter (P : A -> bool) l :
  (forall a b, P a = true -> P b = true -> lt (key b) (key a) = false) ->
  filter P (sort key lt l) = filter P l.
Proof.
  intros P_tied.
  induction l as [|x l IH]; [reflexivity|].
  simpl sort. rewrite insert_filter by exact P_tied. simpl. now rewrite IH.
Qed.

Hypothesis lt_asym : forall a b, lt a b = true -> lt b a = false.
Hypothesis le_trans :
  forall a b c, lt b a = false -> lt c b = false -> lt c a = false.

Lemma lt_irrefl a : lt a a = false.
Proof. destruct (lt a a) eqn:E; [|reflexivity]. now rewrite (lt_asym _ _ E) in E. Qed.

Lemma insert_sorted x l :
  StronglySorted (key_le key lt) l ->
  StronglySorted (key_le key lt) (insert key lt x l).
Proof.
  induction 1 as [|y l Hs IH Hy]; simpl.
  - repeat constructor.
  - destruct (lt (key y) (key x)) eqn:E.
    + constructor; [exact IH|].
      apply insert_Forall; [|exact Hy].
      unfold key_le. now apply lt_asym.
    + constructor; [now constructor|].
      constructor; [exact E|].
      eapply Forall_impl; [|exact Hy].
      intros z Hz. unfold key_le in *. eapply le_trans; eassumption.
Qed.

Lemma sort_sorted l : StronglySorted (key_le key lt) (sort key lt l).
Proof.
  induction l as [|x l IH]; simpl; [constructor|].
  now apply insert_sorted.
Qed.

Lemma tied_refl x : tied key lt x x = true.
Proof. unfold tied. now rewrite lt_irrefl. Qed.

Lemma tied_class x a b :
  tied key lt x a = true -> tied key lt x b = true ->
  lt (key b) (key a) = false.
Proof.
  unfold tied. rewrite !andb_true_iff, !negb_true_iff.
  intros [Hxa Hax] [Hxb Hbx]. eapply le_trans; eassumption.
Qed.

Lemma sorted_head_le x l y :
  StronglySorted (key_le key lt) (x :: l) -> In y (x :: l) ->
  lt (key y) (key x) = false.
Proof.
  intros Hs [<-|Hy]; [apply lt_irrefl|].
  apply StronglySorted_inv in Hs as [_ Hx].
  rewrite Forall_forall in Hx. exact (Hx y Hy).
Qed.

(** Two sorted lists with the same elements in every class of tied keys, in
    the same order, are the same list. *)
Lemma sorted_stable_unique l1 : forall l2,
  StronglySorted (key_le key lt) l1 ->
  StronglySorted (key_le key lt) l2 ->
  (forall x, filter (tied key lt x) l1 = filter (tied key lt x) l2) ->
  l1 = l2.
Proof.
  induction l1 as [|x l1 IH]; intros l2 Hs1 Hs2 Hf.
  - destruct l2 as [|y l2]; [reflexivity|].
    specialize (Hf y). simpl in Hf. rewrite tied_refl in Hf. discriminate.
  - destruct l2 as [|y l2].
    { specialize (Hf x). simpl in Hf. rewrite tied_refl in Hf. discriminate. }
    assert (Hx2 : In x (y :: l2)).
    { apply (proj1 (filter_In (tied key lt x) x (y :: l2))).
      rewrite <- Hf. simpl. rewrite tied_refl. now left. }
    assert (Hy1 : In y (x :: l1)).
    { apply (proj1 (filter_In (tied key lt y) y (x :: l1))).
      rewrite Hf. simpl. rewrite tied_refl. now left. }
    pose proof (sorted_head_le _ _ _ Hs2 Hx2) as Hxy.
    pose proof (sorted_head_le _ _ _ Hs1 Hy1) as Hyx.
    assert (Hxy' : x = y).
    { pose proof (Hf x) as H. simpl in H. rewrite tied_refl in H.
      unfold tied at 2 in H. rewrite Hxy, Hyx in H. simpl in H. congruence. }
    subst y. f_equal.
    apply StronglySorted_inv in Hs1 as [Hs1 _].
    apply StronglySorted_inv in Hs2 as [Hs2 _].
    apply IH; [assumption..|].
    intros z. specialize (Hf z). simpl in Hf.
    destruct (tied key lt z x); congruence.
Qed.

(** Whatever list a stable sort returns, it is the one [sort] returns. *)
Lemma sort_unique l l' :
  StronglySorted (key_le key lt) l' ->
  (forall x, filter (tied key lt x) l' = filter (tied key lt x) l) ->
  l' = sort key lt l.
Proof.
  intros Hs Hf. apply sorted_stable_unique; [exact Hs|apply sort_sorted|].
  intros x. rewrite Hf. symmetry. apply sort_filter.
  intros a b. apply tied_class.
Qed.
End SortFacts.

Lemma StronglySorted_weaken {A} (R1 R2 : A -> A -> Prop) l :
  (forall x y, R1 x y -> R2 x y) ->
  StronglySorted R1 l -> StronglySorted R2 l.
Proof.
  intros H. induction 1 as [|x l Hs IH Hx]; constructor; [exact IH|].
  eapply Forall_impl; [|exact Hx]. intros y. apply H.
Qed.

(** ** Comparisons on keys *)

Lemma Rltb_true x y : Rltb x y = true <-> (x < y)%R.
Proof. unfold Rltb. destruct (Rlt_dec x y); split; (easy || lra). Qed.

Lemma Rltb_false x y : Rltb x y = false <-> (y <= x)%R.
Proof. unfold Rltb. destruct (Rlt_dec x y); split; (easy || lra). Qed.

Lemma Reqb_true x y : Reqb x y = true <-> x = y.
Proof. unfold Reqb. destruct (Req_dec_T x y); split; easy. Qed.

Lemma Reqb_false x y : Reqb x y = false <-> x <> y.
Proof. unfold Reqb. destruct (Req_dec_T x y); split; easy. Qed.

Lemma tuple_lt_false a b :
  tuple_lt b a = false <->
  (fst a < fst b)%R \/ (fst a = fst b /\ (snd a <= snd b)%Z).
Proof.
  unfold tuple_lt. destruct (Reqb (fst b) (fst a)) eqn:E.
  - apply Reqb_true in E. rewrite Z.ltb_ge. split; [intros; right; auto|].
    intros [H|[_ H]]; [lra|exact H].
  - apply Reqb_false in E. rewrite Rltb_false. split.
    + intros H. left. lra.
    + intros [H|[H _]]; [lra|congruence].
Qed.

Lemma tuple_lt_true a b :
  tuple_lt a b = true <->
  (fst a < fst b)%R \/ (fst a = fst b /\ (snd a < snd b)%Z).
Proof.
  unfold tuple_lt. destruct (Reqb (fst a) (fst b)) eqn:E.
  - apply Reqb_true in E. rewrite Z.ltb_lt. split; [intros; right; auto|].
    intros [H|[_ H]]; [lra|exact H].
  - apply Reqb_false in E. rewrite Rltb_true. split.
    + intros H. now left.
    + intros [H|[H _]]; [exact H|congruence].
Qed.

Lemma tuple_lt_asym a b : tuple_lt a b = true -> tuple_lt b a = false.
Proof.
  rewrite tuple_lt_true, tuple_lt_false.
  intros [H|[H1 H2]]; [left; exact H|right; split; [exact H1|lia]].
Qed.

Lemma tuple_le_trans a b c :
  tuple_lt b a = false -> tuple_lt c b = false -> tuple_lt c a = false.
Proof.
  rewrite !tuple_lt_false.
  intros [H1|[H1 H1']] [H2|[H2 H2']].
  - left; lra.
  - left; lra.
  - left; lra.
  - right; split; [congruence|lia].
Qed.

Lemma key_le_alt_le x y : key_le alt_key tuple_lt x y <-> alt_le x y.
Proof.
  unfold key_le, alt_le. rewrite tuple_lt_false. simpl.
  split; (intros [H|[H1 H2]]; [left; exact H|right; split; [exact H1|lia]]).
Qed.

Lemma same_key_tied d k x y :
  same_key d k x = true -> same_key d k y = true ->
  tuple_lt (alt_key y) (alt_key x) = false.
Proof.
  unfold same_key. rewrite !andb_true_iff, !Reqb_true, !Z.eqb_eq.
  intros [H1 H2] [H3 H4]. apply tuple_lt_false. simpl.
  right. split; [congruence|lia].
Qed.

(** The ranking is determined by its two properties: a list in ranking
    order that keeps tied entries in the order of [l] is [sort]'s. *)
Lemma alternatives_sort_unique l l' :
  StronglySorted alt_le l' ->
  (forall x, filter (tied alt_key tuple_lt x) l'
             = filter (tied alt_key tuple_lt x) l) ->
  l' = sort alt_key tuple_lt l.
Proof.
  intros Hs Hf. apply sort_unique.
  - apply tuple_lt_asym.
  - apply tuple_le_trans.
  - eapply StronglySorted_weaken; [|exact Hs].
    intros x y. apply key_le_alt_le.
  - exact Hf.
Qed.

(** ** The distance *)

Lemma asin_nonneg x : (0 <= x)%R -> (0 <= asin x)%R.
Proof.
  intros Hx. unfold asin.
  destruct (Rle_dec x (-1)); [lra|].
  destruct (Rle_dec 1 x); [pose proof PI_RGT_0; lra|].
  assert (Hs : (0 < sqrt (1 - x²))%R).
  { apply sqrt_lt_R0. unfold Rsqr. nra. }
  destruct (Req_dec x 0) as [->|Hne].
  - replace (0 / sqrt (1 - 0²))%R with 0%R by (unfold Rdiv; ring).
    rewrite atan_0. lra.
  - rewrite <- atan_0. left. apply atan_increasing.
    apply Rdiv_lt_0_compat; lra.
Qed.

Lemma haversine_km_some lat1 lon1 lat2 lon2 :
  haversine_km (Some lat1) (Some lon1) (Some lat2) (Some lon2)
  = Some (2 * 6371 *
          asin (sqrt (sin (radians (lat2 - lat1) / 2) ^ 2
                      + cos (radians lat1) * cos (radians lat2)
                        * sin (radians (lon2 - lon1) / 2) ^ 2)))%R.
Proof. reflexivity. Qed.

Lemma haversine_km_none lat1 lon1 lat2 lon2 :
  haversine_km lat1 lon1 lat2 lon2 = None <->
  lat1 = None \/ lon1 = None \/ lat2 = None \/ lon2 = None.
Proof.
  destruct lat1, lon1, lat2, lon2; simpl; split;
    try discriminate; try tauto;
    intros [H|[H|[H|H]]]; discriminate.
Qed.

Lemma haversine_km_same lat lon :
  haversine_km (Some lat) (Some lon) (Some lat) (Some lon) = Some 0%R.
Proof.
  rewrite haversine_km_some. f_equal.
  replace (radians (lat - lat) / 2)%R with 0%R by (unfold radians; field).
  replace (radians (lon - lon) / 2)%R with 0%R by (unfold radians; field).
  rewrite sin_0.
  replace (0 ^ 2 + cos (radians lat) * cos (radians lat) * 0 ^ 2)%R
    with 0%R by ring.
  rewrite sqrt_0, asin_0. ring.
Qed.

Lemma haversine_km_sym lat1 lon1 lat2 lon2 :
  haversine_km (Some lat1) (Some lon1) (Some lat2) (Some lon2)
  = haversine_km (Some lat2) (Some lon2) (Some lat1) (Some lon1).
Proof.
  rewrite !haversine_km_some. do 4 f_equal.
  replace (radians (lat1 - lat2) / 2)%R with (- (radians (lat2 - lat1) / 2))%R
    by (unfold radians; field).
  replace (radians (lon1 - lon2) / 2)%R with (- (radians (lon2 - lon1) / 2))%R
    by (unfold radians; field).
  rewrite !sin_neg. ring.
Qed.

(** In exact arithmetic the argument of [math.sqrt] is never negative and
    that of [math.asin] never above 1: neither call leaves its domain. *)
Lemma haversine_argument_bounds lat1 lon1 lat2 lon2 :
  let a := (sin (radians (lat2 - lat1) / 2) ^ 2
            + cos (radians lat1) * cos (radians lat2)
              * sin (radians (lon2 - lon1) / 2) ^ 2)%R in
  (0 <= a <= 1)%R /\ (0 <= sqrt a <= 1)%R.
Proof.
  intros a.
  assert (Ha : (0 <= a <= 1)%R).
  { subst a.
    set (p1 := radians lat1). set (p2 := radians lat2).
    set (S := (sin (radians (lon2 - lon1) / 2) ^ 2)%R).
    assert (HA : (sin (radians (lat2 - lat1) / 2) ^ 2
                  = (1 - (cos p2 * cos p1 + sin p2 * sin p1)) / 2)%R).
    { rewrite <- cos_minus.
      replace (p2 - p1)%R with (2 * (radians (lat2 - lat1) / 2))%R
        by (unfold p1, p2, radians; field).
      rewrite cos_2a_sin. field. }
    rewrite HA.
    assert (HS : (0 <= S <= 1)%R).
    { unfold S. pose proof (SIN_bound (radians (lon2 - lon1) / 2)). nra. }
    pose proof (sin2_cos2 p1) as H1. pose proof (sin2_cos2 p2) as H2.
    unfold Rsqr in H1, H2.
    set (s1 := sin p1) in *. set (c1 := cos p1) in *.
    set (s2 := sin p2) in *. set (c2 := cos p2) in *.
    pose proof (Rle_0_sqr (s1 - s2)) as Q1.
    pose proof (Rle_0_sqr (s1 + s2)) as Q2.
    pose proof (Rle_0_sqr (c1 - c2)) as Q3.
    pose proof (Rle_0_sqr (c1 + c2)) as Q4.
    unfold Rsqr in Q1, Q2, Q3, Q4.
    assert (HX : (0 <= (1 - s1 * s2 + c1 * c2) / 2 <= 1)%R) by lra.
    assert (HY : (0 <= (1 - s1 * s2 - c1 * c2) / 2 <= 1)%R) by lra.
    replace ((1 - (c2 * c1 + s2 * s1)) / 2 + c1 * c2 * S)%R
      with (S * ((1 - s1 * s2 + c1 * c2) / 2)
            + (1 - S) * ((1 - s1 * s2 - c1 * c2) / 2))%R by field.
    nra. }
  split; [exact Ha|]. split; [apply sqrt_pos|].
  rewrite <- sqrt_1. apply sqrt_le_1_alt. lra.
Qed.

Lemma Int_part_0 : Int_part 0 = 0%Z.
Proof. symmetry. apply Int_part_spec. simpl. lra. Qed.

Lemma round1_0 : round1 0 = 0%R.
Proof.
  unfold round1, round_half_even. rewrite Rmult_0_l, Int_part_0.
  destruct (Rlt_dec (0 - 0) (1 / 2)); [|lra]. simpl. lra.
Qed.

(** ** The availability predicate and the counting loop *)

Lemma is_available_true a b e :
  is_available a b e = true <->
  Equipment.status e = "ReadyToUse" /\
  ((Equipment.start_date e = None \/ Equipment.end_date e = None) \/
   exists s t, Equipment.start_date e = Some s /\ Equipment.end_date e = Some t
               /\ ~ ((s <= b)%Z /\ (a <= t)%Z)).
Proof.
  unfold is_available.
  destruct (String.eqb_spec (Equipment.status e) "ReadyToUse") as [Hs|Hs]; simpl.
  - destruct (Equipment.start_date e) as [s|], (Equipment.end_date e) as [t|];
      try (split; [intros _; split; auto|reflexivity]).
    rewrite negb_true_iff, andb_false_iff, !Z.leb_gt. split.
    + intros H. split; [exact Hs|]. right. exists s, t. repeat split. lia.
    + intros [_ [[H|H]|(s' & t' & H1 & H2 & H)]]; try discriminate.
      injection H1 as <-. injection H2 as <-. lia.
  - split; [discriminate|]. intros [H _]. contradiction.
Qed.

(** Scenarios C and D: a unit planned from 5 to 15 January is blocked for
    10 to 20 January and free for 1 to 5 February. *)
Example scenario_c_d :
  let unit := excavator 8 "Camp3" "ReadyToUse"
                (Some d_2024_01_05) (Some d_2024_01_15) in
  is_available d_2024_01_10 d_2024_01_20 unit = false
  /\ is_available d_2024_02_01 d_2024_02_05 unit = true.
Proof. split; reflexivity. Qed.

Lemma count_loop_from a b l : forall ready maint,
  fold_left (count_step a b) l (ready, maint)
  = ((ready + count_if (ready_pred a b) l)%Z,
     (maint + count_if maint_pred l)%Z).
Proof.
  unfold count_if.
  induction l as [|e l IH]; intros ready maint; simpl.
  - f_equal; lia.
  - unfold ready_pred at 1, maint_pred at 1.
    destruct (String.eqb (Equipment.status e) "UnderMaintenance") eqn:Em.
    + apply String.eqb_eq in Em.
      rewrite IH. rewrite Em. simpl. f_equal; lia.
    + destruct (String.eqb (Equipment.status e) "ReadyToUse" && is_available a b e);
        rewrite IH; simpl; f_equal; lia.
Qed.

Lemma count_loop_spec a b l :
  count_loop a b l = (count_if (ready_pred a b) l, count_if maint_pred l).
Proof. unfold count_loop. now rewrite count_loop_from. Qed.

(** ** What a successful run returns *)

Lemma filter_and {A} (f g : A -> bool) l :
  filter g (filter f l) = filter (fun x => f x && g x) l.
Proof.
  induction l as [|x l IH]; simpl; [reflexivity|].
  destruct (f x); simpl; [destruct (g x)|]; now rewrite IH.
Qed.

Lemma in_map_some {A B} (f : A -> option B) l y :
  In y (map_some f l) <-> exists x, In x l /\ f x = Some y.
Proof.
  induction l as [|x l IH]; simpl.
  - split; [easy|]. now intros (x & [] & _).
  - destruct (f x) as [y'|] eqn:E; simpl; rewrite IH; split.
    + intros [<-|(x' & H1 & H2)]; eauto.
    + intros (x' & [<-|H1] & H2); [left; congruence|eauto].
    + intros (x' & H1 & H2); eauto.
    + intros (x' & [<-|H1] & H2); [congruence|eauto].
Qed.

Lemma available_home_pattern_count c n s e st :
  available_home c n s e st = pattern_count c n s e st.
Proof.
  unfold available_home, pattern_count, count_if, matching.
  rewrite (filter_and (fun x => Str.ilike (Equipment.camp_name x) c)).
  now rewrite filter_and.
Qed.

Lemma home_workshop_none c st :
  home_workshop c st = None <->
  forall w, In w (workshops st) -> Str.ilike (Workshop.camp_name w) c = false.
Proof.
  unfold home_workshop. split.
  - intros H w Hw. exact (find_none _ _ H w Hw).
  - intros H. destruct (find _ _) as [w|] eqn:E; [|reflexivity].
    apply find_some in E as [Hw Hm]. rewrite (H w Hw) in Hm. discriminate.
Qed.

Lemma check_demand_ok c n s e q r st res :
  snd (check_demand c n s e q r st) = inr res ->
  exists home,
    home_workshop c st = Some home /\
    res = Result.set_alternatives (home_result c n s e q r home st)
            (if meets c n s e q st then []
             else sort alt_key tuple_lt
                    (map_some (alt_of c n s e r home st) (workshops st))) /\
    fst (check_demand c n s e q r st)
    = SelectWorkshopFirst c :: SelectEquipmentAll c n ::
      (if meets c n s e q st then []
       else SelectWorkshopAll
              :: flat_map (alt_queries c n s e r home st) (workshops st)).
Proof.
  rewrite check_demand_run.
  destruct (home_workshop c st) as [home|]; [|discriminate].
  exists home. split; [reflexivity|].
  cbv zeta in *. destruct (meets c n s e q st); simpl in *.
  - injection H as <-. split; reflexivity.
  - injection H as <-. split; reflexivity.
Qed.

Lemma check_demand_found c n s e q r st home :
  home_workshop c st = Some home ->
  exists res,
    snd (check_demand c n s e q r st) = inr res /\
    Result.camp_name res = c /\
    Result.requested res = Requested.mk n s e q /\
    Result.availability res
    = Availability.mk (pattern_count c n s e st)
        (pattern_count c n s e st >=? q)%Z /\
    Result.ui res
    = Ui.mk (negb (pattern_count c n s e st >=? q)%Z)
        (LatLon.mk (Workshop.location_lat home) (Workshop.location_lon home))
        r.
Proof.
  intros Hh. rewrite check_demand_run, Hh. cbv zeta.
  rewrite <- available_home_pattern_count.
  fold (meets c n s e q st).
  destruct (meets c n s e q st) eqn:Hm; eexists;
    (split; [reflexivity|]); simpl; rewrite ?Hm; repeat split.
Qed.

Lemma alt_of_some c n s e r home st ws x :
  alt_of c n s e r home st ws = Some x ->
  exists d,
    Str.py_lower (Workshop.camp_name ws) <> Str.py_lower c /\
    haversine_km (Workshop.location_lat home) (Workshop.location_lon home)
      (Workshop.location_lat ws) (Workshop.location_lon ws) = Some d /\
    ~ (d > r)%R /\
    x = Alternative.mk (Workshop.camp_name ws) (Workshop.workshop_id ws)
          (round1 d)
          (LatLon.mk (Workshop.location_lat ws) (Workshop.location_lon ws))
          (Counts.mk
             (count_if (ready_pred s e) (matching n (Workshop.camp_name ws) st))
             (count_if maint_pred (matching n (Workshop.camp_name ws) st))).
Proof.
  unfold alt_of.
  destruct (String.eqb_spec (Str.py_lower (Workshop.camp_name ws))
              (Str.py_lower c)) as [|Hne]; [discriminate|].
  destruct (haversine_km _ _ _ _) as [d|]; [|discriminate].
  destruct (Rgtb d r) eqn:Hg; [discriminate|].
  intros [= <-]. exists d. repeat split; try assumption.
  - apply Rltb_false in Hg. lra.
  - now rewrite count_loop_spec.
Qed.

Lemma alt_of_intro c n s e r home st ws d :
  Str.py_lower (Workshop.camp_name ws) <> Str.py_lower c ->
  haversine_km (Workshop.location_lat home) (Workshop.location_lon home)
    (Workshop.location_lat ws) (Workshop.location_lon ws) = Some d ->
  (d <= r)%R ->
  alt_of c n s e r home st ws
  = Some (Alternative.mk (Workshop.camp_name ws) (Workshop.workshop_id ws)
            (round1 d)
            (LatLon.mk (Workshop.location_lat ws) (Workshop.location_lon ws))
            (Counts.mk
               (count_if (ready_pred s e)
                  (matching n (Workshop.camp_name ws) st))
               (count_if maint_pred (matching n (Workshop.camp_name ws) st)))).
Proof.
  intros Hne Hd Hr. unfold alt_of.
  apply String.eqb_neq in Hne. rewrite Hne, Hd.
  unfold Rgtb. rewrite (proj2 (Rltb_false r d) Hr).
  now rewrite count_loop_spec.
Qed.

Lemma alt_of_candidate c n s e r home st ws :
  alt_of c n s e r home st ws = None <-> candidate c r home ws = false.
Proof.
  unfold alt_of, candidate.
  destruct (String.eqb _ _); simpl; [easy|].
  destruct (haversine_km _ _ _ _); [|easy].
  destruct (Rgtb _ _); simpl; easy.
Qed.

Lemma map_some_alt_of_ids c n s e r home st wss :
  map Alternative.workshop_id (map_some (alt_of c n s e r home st) wss)
  = map Workshop.workshop_id (filter (candidate c r home) wss).
Proof.
  induction wss as [|ws wss IH]; [reflexivity|]. simpl.
  destruct (alt_of c n s e r home st ws) as [x|] eqn:E.
  - destruct (candidate c r home ws) eqn:Ec.
    + simpl. rewrite IH. f_equal.
      apply alt_of_some in E as (d & _ & _ & _ & ->). reflexivity.
    + apply (alt_of_candidate c n s e r home st) in Ec. congruence.
  - apply alt_of_candidate in E. now rewrite E.
Qed.

(** ** Runs on the example stores *)

Lemma run_store_a :
  check_demand "Camp1" "Excavator" d_2024_01_01 d_2024_01_10 3 15 store_a
  = ([SelectWorkshopFirst "Camp1"; SelectEquipmentAll "Camp1" "Excavator"],
     inr result_a).
Proof. rewrite check_demand_run. reflexivity. Qed.

Lemma run_store_b :
  snd (check_demand "Camp1" "Excavator" d_2024_01_10 d_2024_01_20 5 15 store_b)
  = inr result_b.
Proof.
  rewrite check_demand_run.
  change (home_workshop "Camp1" store_b) with (Some ws_camp1). cbv zeta.
  assert (Hm : meets "Camp1" "Excavator" d_2024_01_10 d_2024_01_20 5 store_b
               = false) by reflexivity.
  rewrite Hm. simpl snd. f_equal.
  unfold Result.set_alternatives, home_result. rewrite Hm.
  change (available_home "Camp1" "Excavator" d_2024_01_10 d_2024_01_20 store_b)
    with 2%Z.
  unfold result_b. f_equal.
  change (workshops store_b) with [ws_camp1; ws_camp2; ws_camp3; ws_camp4].
  assert (H2 : alt_of "Camp1" "Excavator" d_2024_01_10 d_2024_01_20 15
                 ws_camp1 store_b ws_camp2 = Some alt_camp2).
  { rewrite alt_of_intro with (d := 0%R).
    - rewrite round1_0. reflexivity.
    - discriminate.
    - apply haversine_km_same.
    - lra. }
  assert (H3 : alt_of "Camp1" "Excavator" d_2024_01_10 d_2024_01_20 15
                 ws_camp1 store_b ws_camp3 = Some alt_camp3).
  { rewrite alt_of_intro with (d := 0%R).
    - rewrite round1_0. reflexivity.
    - discriminate.
    - apply haversine_km_same.
    - lra. }
  cbn [map_some]. rewrite H2, H3.
  cbn [sort insert].
  assert (Hlt : tuple_lt (alt_key alt_camp3) (alt_key alt_camp2) = true).
  { apply tuple_lt_true. right. split; reflexivity. }
  rewrite Hlt. reflexivity.
Qed.

Lemma run_store_c :
  snd (check_demand "Camp0" "Excavator" d_2024_01_10 d_2024_01_20 1 100000
         store_c)
  = inr result_c.
Proof. rewrite check_demand_run. reflexivity. Qed.

Lemma run_store_b_exc :
  snd (check_demand "Camp1" "Exc" d_2024_01_10 d_2024_01_20 5 15 store_b)
  = inr result_b_exc.
Proof.
  rewrite check_demand_run.
  change (home_workshop "Camp1" store_b) with (Some ws_camp1). cbv zeta.
  assert (Hm : meets "Camp1" "Exc" d_2024_01_10 d_2024_01_20 5 store_b
               = false) by reflexivity.
  rewrite Hm. simpl snd. f_equal.
  unfold Result.set_alternatives, home_result. rewrite Hm.
  change (available_home "Camp1" "Exc" d_2024_01_10 d_2024_01_20 store_b)
    with 0%Z.
  unfold result_b_exc. f_equal.
  change (workshops store_b) with [ws_camp1; ws_camp2; ws_camp3; ws_camp4].
  assert (H2 : alt_of "Camp1" "Exc" d_2024_01_10 d_2024_01_20 15
                 ws_camp1 store_b ws_camp2 = Some alt_camp2_exc).
  { rewrite alt_of_intro with (d := 0%R).
    - rewrite round1_0. reflexivity.
    - discriminate.
    - apply haversine_km_same.
    - lra. }
  assert (H3 : alt_of "Camp1" "Exc" d_2024_01_10 d_2024_01_20 15
                 ws_camp1 store_b ws_camp3 = Some alt_camp3_exc).
  { rewrite alt_of_intro with (d := 0%R).
    - rewrite round1_0. reflexivity.
    - discriminate.
    - apply haversine_km_same.
    - lra. }
  cbn [map_some]. rewrite H2, H3.
  cbn [sort insert].
  assert (Hlt : tuple_lt (alt_key alt_camp3_exc) (alt_key alt_camp2_exc)
                = false).
  { apply tuple_lt_false. right. split; [reflexivity|]. simpl. lia. }
  rewrite Hlt. reflexivity.
Qed.

(** * The claims *)

(** C1. The availability predicate is a total boolean function of one record
    and a closed window [[a, b]]: it is true exactly when the status is
    [ReadyToUse] and the record lacks one of its own dates, or carries both,
    [[s, t]], and not ([s <= b] and [a <= t]). For any other status it is
    false for every window. *)
Theorem C1_is_available (a b : date) (e : Equipment.t) :
  (is_available a b e = true <->
   Equipment.status e = "ReadyToUse" /\
   ((Equipment.start_date e = None \/ Equipment.end_date e = None) \/
    exists s t, Equipment.start_date e = Some s /\ Equipment.end_date e = Some t
                /\ ~ ((s <= b)%Z /\ (a <= t)%Z)))
  /\ (Equipment.status e <> "ReadyToUse" -> is_available a b e = false).
Proof.
  split; [apply is_available_true|].
  intros Hs. apply not_true_is_false. rewrite is_available_true.
  intros [H _]. contradiction.
Qed.

(** C2, amended. When the camp name resolves to a home workshop, the
    available count is the number of equipment rows whose camp name and
    equipment name match the requested names as case-insensitive LIKE
    patterns (the whole name, not a substring of it; for requested names
    without wildcards, equality once lower-cased) and that satisfy the
    availability predicate; [meets_requirement] holds exactly when that count
    is at least the requested quantity. *)
Theorem C2_home_count c n s e q r st home :
  home_workshop c st = Some home ->
  exists res,
    snd (check_demand c n s e q r st) = inr res /\
    Availability.available (Result.availability res)
    = pattern_count c n s e st /\
    (Availability.meets_requirement (Result.availability res) = true <->
     (pattern_count c n s e st >= q)%Z) /\
    (Str.plain c = true -> Str.plain n = true ->
     pattern_count c n s e st
     = count_if (fun x => Str.eq_nocase (Equipment.camp_name x) c
                          && Str.eq_nocase (Equipment.equipment_name x) n
                          && is_available s e x)
         (equipment st)).
Proof.
  intros Hh.
  destruct (check_demand_found c n s e q r st home Hh)
    as (res & Hres & _ & _ & Ha & _).
  exists res. split; [exact Hres|]. rewrite Ha. simpl.
  split; [reflexivity|]. split.
  - rewrite Z.geb_leb, Z.leb_le. lia.
  - intros Hc Hn. unfold pattern_count, count_if. do 2 f_equal.
    apply filter_ext. intros x. now rewrite !ilike_plain.
Qed.

(** Scenario A, asked in another case: five units, three requested. *)
Lemma C2_home_count_witness :
  exists res,
    snd (check_demand "camp1" "EXCAVATOR" d_2024_01_01 d_2024_01_10 3 15
           store_a) = inr res /\
    Availability.available (Result.availability res)
    = pattern_count "camp1" "EXCAVATOR" d_2024_01_01 d_2024_01_10 store_a /\
    (Availability.meets_requirement (Result.availability res) = true <->
     (pattern_count "camp1" "EXCAVATOR" d_2024_01_01 d_2024_01_10 store_a
      >= 3)%Z) /\
    (Str.plain "camp1" = true -> Str.plain "EXCAVATOR" = true ->
     pattern_count "camp1" "EXCAVATOR" d_2024_01_01 d_2024_01_10 store_a
     = count_if (fun x => Str.eq_nocase (Equipment.camp_name x) "camp1"
                          && Str.eq_nocase (Equipment.equipment_name x)
                               "EXCAVATOR"
                          && is_available d_2024_01_01 d_2024_01_10 x)
         (equipment store_a)).
Proof.
  apply (C2_home_count "camp1" "EXCAVATOR" d_2024_01_01 d_2024_01_10 3 15
           store_a ws_camp1).
  reflexivity.
Defined.

(** C2 as stated fails: asked for "Exc", the five excavators of scenario A
    contain the requested type as a substring, yet the home count is 0 and
    the requirement is not met. *)
Lemma C2_substring_counterexample :
  exists res,
    snd (check_demand "Camp1" "Exc" d_2024_01_01 d_2024_01_10 3 15 store_a)
    = inr res /\
    Availability.available (Result.availability res) = 0%Z /\
    Availability.meets_requirement (Result.availability res) = false /\
    substring_count "Camp1" "Exc" d_2024_01_01 d_2024_01_10 store_a = 5%Z.
Proof.
  rewrite check_demand_run.
  change (home_workshop "Camp1" store_a) with (Some ws_camp1). cbv zeta.
  change (meets "Camp1" "Exc" d_2024_01_01 d_2024_01_10 3 store_a) with false.
  eexists. split; [reflexivity|]. repeat split.
Qed.

(** C3. The alternatives of every result are in ascending order of distance,
    entries at the same distance in descending order of [ready_to_use];
    entries with the same distance and the same count keep the order in which
    the workshops were enumerated. *)
Theorem C3_alternatives_sorted c n s e q r st home res :
  home_workshop c st = Some home ->
  snd (check_demand c n s e q r st) = inr res ->
  StronglySorted alt_le (Result.alternatives res)
  /\ (Availability.meets_requirement (Result.availability res) = false ->
      forall d k,
        filter (same_key d k) (Result.alternatives res)
        = filter (same_key d k)
            (map_some (alt_of c n s e r home st) (workshops st))).
Proof.
  intros Hh Hrun.
  apply check_demand_ok in Hrun as (home' & Hh' & -> & _).
  rewrite Hh in Hh'. injection Hh' as <-. simpl.
  destruct (meets c n s e q st) eqn:Hm; split.
  - constructor.
  - discriminate.
  - eapply StronglySorted_weaken; [|apply sort_sorted].
    + intros x y. apply key_le_alt_le.
    + apply tuple_lt_asym.
    + apply tuple_le_trans.
  - intros _ d k. apply sort_filter. apply same_key_tied.
Qed.

(** Scenario B: Camp2 is enumerated before Camp3, both at distance 0; Camp3
    has more units ready and is ranked first. *)
Lemma C3_alternatives_sorted_witness :
  StronglySorted alt_le [alt_camp3; alt_camp2]
  /\ (Availability.meets_requirement (Result.availability result_b) = false ->
      forall d k,
        filter (same_key d k) [alt_camp3; alt_camp2]
        = filter (same_key d k)
            (map_some (alt_of "Camp1" "Excavator" d_2024_01_10 d_2024_01_20 15
                         ws_camp1 store_b)
               (workshops store_b))).
Proof.
  apply (C3_alternatives_sorted "Camp1" "Excavator" d_2024_01_10 d_2024_01_20
           5 15 store_b ws_camp1 result_b).
  - reflexivity.
  - exact run_store_b.
Defined.

Lemma alternative_counts_matching c n s e q r st res :
  snd (check_demand c n s e q r st) = inr res ->
  forall x, In x (Result.alternatives res) ->
    exists ws,
      In ws (workshops st) /\
      Alternative.camp_name x = Workshop.camp_name ws /\
      Counts.ready_to_use (Alternative.counts x)
      = count_if (ready_pred s e) (matching n (Workshop.camp_name ws) st) /\
      Counts.under_maintenance (Alternative.counts x)
      = count_if maint_pred (matching n (Workshop.camp_name ws) st).
Proof.
  intros Hrun.
  apply check_demand_ok in Hrun as (home & _ & -> & _). simpl.
  intros x Hx. destruct (meets c n s e q st); [destruct Hx|].
  eapply Permutation_in in Hx; [|apply sort_perm].
  apply in_map_some in Hx as (ws & Hws & Hx).
  apply alt_of_some in Hx as (d & _ & _ & _ & ->).
  exists ws. repeat split; assumption.
Qed.

Lemma matching_plain_camp n camp st :
  Str.plain camp = true -> matching n camp st = camp_matching n camp st.
Proof.
  intros Hc. unfold matching, camp_matching. rewrite filter_and.
  apply filter_ext. intros y. now rewrite (ilike_plain _ camp Hc).
Qed.

(** C4, amended. Every alternative entry comes from a workshop of the store.
    When that workshop's camp name holds no LIKE wildcard, the entry's
    [ready_to_use] is the number of equipment rows whose camp name equals it
    but for the case of A-Z and whose equipment name matches the requested
    type as a case-insensitive LIKE pattern on the whole name (not a
    substring of it), with status [ReadyToUse], that pass the availability
    predicate; its [under_maintenance] is the number of those rows with
    status [UnderMaintenance], whatever their dates. A row with status
    [Allocated], or [ReadyToUse] but blocked by its dates, is in neither
    count. *)
Theorem C4_alternative_counts c n s e q r st res :
  snd (check_demand c n s e q r st) = inr res ->
  (forall x, In x (Result.alternatives res) ->
     exists ws,
       In ws (workshops st) /\
       Alternative.camp_name x = Workshop.camp_name ws /\
       (Str.plain (Workshop.camp_name ws) = true ->
        Counts.ready_to_use (Alternative.counts x)
        = count_if (fun y => String.eqb (Equipment.status y) "ReadyToUse"
                             && is_available s e y)
            (camp_matching n (Workshop.camp_name ws) st) /\
        Counts.under_maintenance (Alternative.counts x)
        = count_if
            (fun y => String.eqb (Equipment.status y) "UnderMaintenance")
            (camp_matching n (Workshop.camp_name ws) st)))
  /\ (forall y,
        Equipment.status y = "Allocated" \/
        (Equipment.status y = "ReadyToUse" /\ is_available s e y = false) ->
        String.eqb (Equipment.status y) "ReadyToUse" && is_available s e y
        = false
        /\ String.eqb (Equipment.status y) "UnderMaintenance" = false).
Proof.
  intros Hrun. split.
  - intros x Hx.
    destruct (alternative_counts_matching _ _ _ _ _ _ _ _ Hrun x Hx)
      as (ws & Hws & Hc & Hr & Hm).
    exists ws. split; [exact Hws|]. split; [exact Hc|].
    intros Hp. rewrite <- (matching_plain_camp n _ st Hp). split; assumption.
  - intros y [H|[H1 H2]].
    + rewrite H. split; reflexivity.
    + rewrite H1, H2. split; reflexivity.
Qed.

(** Scenario B: Camp3 has two units ready (one more is blocked by its
    dates), Camp2 one ready, one under maintenance and one allocated. *)
Lemma C4_alternative_counts_witness :
  (forall x, In x [alt_camp3; alt_camp2] ->
     exists ws,
       In ws (workshops store_b) /\
       Alternative.camp_name x = Workshop.camp_name ws /\
       (Str.plain (Workshop.camp_name ws) = true ->
        Counts.ready_to_use (Alternative.counts x)
        = count_if (fun y => String.eqb (Equipment.status y) "ReadyToUse"
                             && is_available d_2024_01_10 d_2024_01_20 y)
            (camp_matching "Excavator" (Workshop.camp_name ws) store_b) /\
        Counts.under_maintenance (Alternative.counts x)
        = count_if
            (fun y => String.eqb (Equipment.status y) "UnderMaintenance")
            (camp_matching "Excavator" (Workshop.camp_name ws) store_b)))
  /\ (forall y,
        Equipment.status y = "Allocated" \/
        (Equipment.status y = "ReadyToUse" /\
         is_available d_2024_01_10 d_2024_01_20 y = false) ->
        String.eqb (Equipment.status y) "ReadyToUse"
        && is_available d_2024_01_10 d_2024_01_20 y = false
        /\ String.eqb (Equipment.status y) "UnderMaintenance" = false).
Proof.
  exact (C4_alternative_counts "Camp1" "Excavator" d_2024_01_10 d_2024_01_20
           5 15 store_b result_b run_store_b).
Defined.

(** C4 as stated fails: asked for "Exc", the entry of Camp2 reports no unit
    ready and none under maintenance, while Camp2 holds one excavator ready
    and one under maintenance, both matching "Exc" as a substring. *)
Lemma C4_substring_counterexample :
  exists res x,
    snd (check_demand "Camp1" "Exc" d_2024_01_10 d_2024_01_20 5 15 store_b)
    = inr res /\
    In x (Result.alternatives res) /\
    Alternative.camp_name x = "Camp2" /\
    Counts.ready_to_use (Alternative.counts x) = 0%Z /\
    Counts.under_maintenance (Alternative.counts x) = 0%Z /\
    count_if (fun y => String.eqb (Equipment.status y) "ReadyToUse"
                       && is_available d_2024_01_10 d_2024_01_20 y)
      (substring_matching "Exc" "Camp2" store_b) = 1%Z /\
    count_if (fun y => String.eqb (Equipment.status y) "UnderMaintenance")
      (substring_matching "Exc" "Camp2" store_b) = 1%Z.
Proof.
  exists result_b_exc, alt_camp2_exc.
  split; [exact run_store_b_exc|]. split; [left; reflexivity|].
  repeat split.
Qed.

(** C5. An entry of the alternatives comes from a workshop whose camp name
    differs from the requested one when both are lower-cased by Python's
    [str.lower], whose distance
    from the home workshop is known and does not exceed the radius; when the
    search runs, the entries are, workshop for workshop, those that pass the
    three tests, so a workshop that fails one contributes none. *)
Theorem C5_alternative_candidates c n s e q r st home res :
  home_workshop c st = Some home ->
  snd (check_demand c n s e q r st) = inr res ->
  (forall x, In x (Result.alternatives res) ->
     exists ws d,
       In ws (workshops st) /\
       Str.py_lower (Workshop.camp_name ws) <> Str.py_lower c /\
       haversine_km (Workshop.location_lat home) (Workshop.location_lon home)
         (Workshop.location_lat ws) (Workshop.location_lon ws) = Some d /\
       ~ (d > r)%R /\
       Alternative.camp_name x = Workshop.camp_name ws /\
       Alternative.workshop_id x = Workshop.workshop_id ws /\
       Alternative.distance_km x = round1 d /\
       Alternative.location x
       = LatLon.mk (Workshop.location_lat ws) (Workshop.location_lon ws))
  /\ (Availability.meets_requirement (Result.availability res) = false ->
      Permutation (map Alternative.workshop_id (Result.alternatives res))
        (map Workshop.workshop_id (filter (candidate c r home) (workshops st))))
  /\ (forall ws,
        candidate c r home ws = false <->
        Str.py_lower (Workshop.camp_name ws) = Str.py_lower c \/
        haversine_km (Workshop.location_lat home) (Workshop.location_lon home)
          (Workshop.location_lat ws) (Workshop.location_lon ws) = None \/
        exists d,
          haversine_km (Workshop.location_lat home) (Workshop.location_lon home)
            (Workshop.location_lat ws) (Workshop.location_lon ws) = Some d /\
          (d > r)%R).
Proof.
  intros Hh Hrun.
  apply check_demand_ok in Hrun as (home' & Hh' & -> & _).
  rewrite Hh in Hh'. injection Hh' as <-. simpl.
  split; [|split].
  - intros x Hx. destruct (meets c n s e q st); [destruct Hx|].
    eapply Permutation_in in Hx; [|apply sort_perm].
    apply in_map_some in Hx as (ws & Hws & Hx).
    apply alt_of_some in Hx as (d & H1 & H2 & H3 & ->).
    exists ws, d. repeat split; assumption.
  - destruct (meets c n s e q st); [discriminate|]. intros _.
    rewrite <- map_some_alt_of_ids with (n := n) (s := s) (e := e) (st := st).
    apply Permutation_map, sort_perm.
  - intros ws. unfold candidate.
    destruct (String.eqb_spec (Str.py_lower (Workshop.camp_name ws)) (Str.py_lower c))
      as [He|He]; simpl.
    + split; auto.
    + destruct (haversine_km _ _ _ _) as [d|].
      * rewrite negb_false_iff. unfold Rgtb. rewrite Rltb_true. split.
        -- intros H. right. right. exists d. split; [reflexivity|lra].
        -- intros [H|[H|(d' & [= <-] & H)]]; [contradiction|discriminate|lra].
      * split; auto.
Qed.

(** Scenario B: of the four workshops, the home camp and the camp without
    latitude contribute nothing. *)
Lemma C5_alternative_candidates_witness :
  (forall x, In x [alt_camp3; alt_camp2] ->
     exists ws d,
       In ws (workshops store_b) /\
       Str.py_lower (Workshop.camp_name ws) <> Str.py_lower "Camp1" /\
       haversine_km (Workshop.location_lat ws_camp1)
         (Workshop.location_lon ws_camp1)
         (Workshop.location_lat ws) (Workshop.location_lon ws) = Some d /\
       ~ (d > 15)%R /\
       Alternative.camp_name x = Workshop.camp_name ws /\
       Alternative.workshop_id x = Workshop.workshop_id ws /\
       Alternative.distance_km x = round1 d /\
       Alternative.location x
       = LatLon.mk (Workshop.location_lat ws) (Workshop.location_lon ws))
  /\ (Availability.meets_requirement (Result.availability result_b) = false ->
      Permutation ["WS3"; "WS2"]
        (map Workshop.workshop_id
           (filter (candidate "Camp1" 15 ws_camp1) (workshops store_b))))
  /\ (forall ws,
        candidate "Camp1" 15 ws_camp1 ws = false <->
        Str.py_lower (Workshop.camp_name ws) = Str.py_lower "Camp1" \/
        haversine_km (Workshop.location_lat ws_camp1)
          (Workshop.location_lon ws_camp1)
          (Workshop.location_lat ws) (Workshop.location_lon ws) = None \/
        exists d,
          haversine_km (Workshop.location_lat ws_camp1)
            (Workshop.location_lon ws_camp1)
            (Workshop.location_lat ws) (Workshop.location_lon ws) = Some d /\
          (d > 15)%R).
Proof.
  apply (C5_alternative_candidates "Camp1" "Excavator" d_2024_01_10
           d_2024_01_20 5 15 store_b ws_camp1 result_b).
  - reflexivity.
  - exact run_store_b.
Defined.

(** C6, at the failing input. The requested camp name "Camp%" is the name of
    no workshop of scenario A, whether names are compared as SQLite folds
    them or as [str.lower] does, and yet the request does not fail: the
    wildcard reaches LIKE unescaped, the lookup finds "Camp1" and the
    response reports its five units and its coordinates. When more units are
    asked for than it holds, the search for alternatives compares the names
    literally, does not recognise the home camp and offers it as an
    alternative to itself. *)
Theorem C6_wildcard_request :
  (forall w, In w (workshops store_a) ->
             Str.eq_nocase (Workshop.camp_name w) "Camp%" = false
             /\ Str.py_lower (Workshop.camp_name w) <> Str.py_lower "Camp%")
  /\ (exists res,
        check_demand "Camp%" "Excavator" d_2024_01_01 d_2024_01_10 3 15 store_a
        = ([SelectWorkshopFirst "Camp%";
            SelectEquipmentAll "Camp%" "Excavator"], inr res) /\
        Availability.available (Result.availability res) = 5%Z /\
        Ui.center (Result.ui res) = LatLon.mk (Some 10%R) (Some 20%R))
  /\ (exists res,
        snd (check_demand "Camp%" "Excavator" d_2024_01_01 d_2024_01_10 100 15
               store_a) = inr res /\
        Ui.center (Result.ui res) = LatLon.mk (Some 10%R) (Some 20%R) /\
        Result.alternatives res
        = [Alternative.mk "Camp1" "WS1" 0%R
             (LatLon.mk (Some 10%R) (Some 20%R)) (Counts.mk 5 0)]).
Proof.
  split; [|split].
  - intros w [<-|[]]. split; [reflexivity|discriminate].
  - rewrite check_demand_run.
    change (home_workshop "Camp%" store_a) with (Some ws_camp1). cbv zeta.
    change (meets "Camp%" "Excavator" d_2024_01_01 d_2024_01_10 3 store_a)
      with true.
    eexists. split; [reflexivity|]. split; reflexivity.
  - rewrite check_demand_run.
    change (home_workshop "Camp%" store_a) with (Some ws_camp1). cbv zeta.
    assert (Hm : meets "Camp%" "Excavator" d_2024_01_01 d_2024_01_10 100
                   store_a = false) by reflexivity.
    rewrite Hm. simpl snd. eexists. split; [reflexivity|].
    split; [reflexivity|].
    unfold Result.set_alternatives. cbn [Result.alternatives].
    change (workshops store_a) with [ws_camp1].
    assert (H1 : alt_of "Camp%" "Excavator" d_2024_01_01 d_2024_01_10 15
                   ws_camp1 store_a ws_camp1
                 = Some (Alternative.mk "Camp1" "WS1" 0%R
                           (LatLon.mk (Some 10%R) (Some 20%R))
                           (Counts.mk 5 0))).
    { rewrite alt_of_intro with (d := 0%R).
      - rewrite round1_0. reflexivity.
      - discriminate.
      - apply haversine_km_same.
      - lra. }
    cbn [map_some]. rewrite H1. reflexivity.
Qed.

(** C7. When the home camp meets the requirement the alternatives are empty
    and only the two home queries were issued: the workshops are not listed.
    A result with alternatives, or a run that listed the workshops, has a
    home count below the requested quantity. *)
Theorem C7_no_search_when_met c n s e q r st res :
  snd (check_demand c n s e q r st) = inr res ->
  (Availability.meets_requirement (Result.availability res) = true ->
   Result.alternatives res = [] /\
   fst (check_demand c n s e q r st)
   = [SelectWorkshopFirst c; SelectEquipmentAll c n])
  /\ (Result.alternatives res <> [] \/
      In SelectWorkshopAll (fst (check_demand c n s e q r st)) ->
      Availability.meets_requirement (Result.availability res) = false /\
      (Availability.available (Result.availability res) < q)%Z).
Proof.
  intros Hrun.
  apply check_demand_ok in Hrun as (home & _ & -> & ->). simpl.
  unfold meets. destruct (available_home c n s e st >=? q)%Z eqn:Hm.
  - split; [auto|]. intros [H|[H|[H|[]]]]; easy.
  - split; [discriminate|]. intros _. split; [reflexivity|].
    rewrite Z.geb_leb in Hm. apply Z.leb_gt in Hm. exact Hm.
Qed.

(** Scenario A: five units for three requested, no alternatives and no
    listing of the workshops. *)
Lemma C7_no_search_when_met_witness :
  (Availability.meets_requirement (Result.availability result_a) = true ->
   Result.alternatives result_a = [] /\
   fst (check_demand "Camp1" "Excavator" d_2024_01_01 d_2024_01_10 3 15
          store_a)
   = [SelectWorkshopFirst "Camp1"; SelectEquipmentAll "Camp1" "Excavator"])
  /\ (Result.alternatives result_a <> [] \/
      In SelectWorkshopAll
        (fst (check_demand "Camp1" "Excavator" d_2024_01_01 d_2024_01_10 3 15
                store_a)) ->
      Availability.meets_requirement (Result.availability result_a) = false /\
      (Availability.available (Result.availability result_a) < 3)%Z).
Proof.
  apply (C7_no_search_when_met "Camp1" "Excavator" d_2024_01_01 d_2024_01_10
           3 15 store_a result_a).
  rewrite run_store_a. reflexivity.
Defined.

(** C9. The distance from a point to itself is exactly 0, and the distance
    is symmetric in its two points. *)
Theorem C9_haversine_zero_sym (lat1 lon1 lat2 lon2 : R) :
  haversine_km (Some lat1) (Some lon1) (Some lat1) (Some lon1) = Some 0%R
  /\ haversine_km (Some lat1) (Some lon1) (Some lat2) (Some lon2)
     = haversine_km (Some lat2) (Some lon2) (Some lat1) (Some lon1).
Proof. split; [apply haversine_km_same|apply haversine_km_sym]. Qed.

(** C10. If the home workshop has no latitude or no longitude, the
    alternatives of the result are empty, whatever the radius, the other
    workshops and the equipment: the distance to every workshop is unknown
    and the loop issues no equipment query. *)
Theorem C10_home_without_coordinates c n s e q r st home res :
  home_workshop c st = Some home ->
  Workshop.location_lat home = None \/ Workshop.location_lon home = None ->
  snd (check_demand c n s e q r st) = inr res ->
  Result.alternatives res = []
  /\ (forall ws,
        haversine_km (Workshop.location_lat home) (Workshop.location_lon home)
          (Workshop.location_lat ws) (Workshop.location_lon ws) = None)
  /\ forall cp np, In (SelectEquipmentAll cp np)
                     (fst (check_demand c n s e q r st)) -> cp = c.
Proof.
  intros Hh Hnone Hrun.
  assert (Hd : forall ws,
             haversine_km (Workshop.location_lat home)
               (Workshop.location_lon home)
               (Workshop.location_lat ws) (Workshop.location_lon ws) = None).
  { intros ws. apply haversine_km_none. tauto. }
  assert (Ha : forall ws, alt_of c n s e r home st ws = None).
  { intros ws. unfold alt_of. rewrite Hd. now destruct (String.eqb _ _). }
  assert (Hm : forall wss, map_some (alt_of c n s e r home st) wss = []).
  { induction wss as [|ws wss IH]; [reflexivity|]. simpl. now rewrite Ha. }
  assert (Hq : forall wss, flat_map (alt_queries c n s e r home st) wss = []).
  { induction wss as [|ws wss IH]; [reflexivity|].
    simpl. unfold alt_queries at 1. rewrite Ha. exact IH. }
  apply check_demand_ok in Hrun as (home' & Hh' & -> & ->).
  rewrite Hh in Hh'. injection Hh' as <-. simpl.
  rewrite Hm, Hq. split; [|split; [exact Hd|]].
  - now destruct (meets c n s e q st).
  - intros cp np [H|[H|H]]; [discriminate|now injection H|].
    destruct (meets c n s e q st); simpl in H; [easy|].
    destruct H as [H|[]]. discriminate.
Qed.

(** A home camp without latitude, a radius of 100000 km and a camp with a
    unit ready: the demand is unmet and there is no alternative. *)
Lemma C10_home_without_coordinates_witness :
  Result.alternatives result_c = []
  /\ (forall ws,
        haversine_km (Workshop.location_lat ws_nolat)
          (Workshop.location_lon ws_nolat)
          (Workshop.location_lat ws) (Workshop.location_lon ws) = None)
  /\ forall cp np,
       In (SelectEquipmentAll cp np)
          (fst (check_demand "Camp0" "Excavator" d_2024_01_10 d_2024_01_20 1
                  100000 store_c)) -> cp = "Camp0".
Proof.
  apply (C10_home_without_coordinates "Camp0" "Excavator" d_2024_01_10
           d_2024_01_20 1 100000 store_c ws_nolat result_c).
  - reflexivity.
  - left. reflexivity.
  - exact run_store_c.
Defined.

(** * Further properties of the demand check *)

(** ** The availability predicate *)

(** X1. A unit available for a window is available for every window inside
    it. *)
Theorem is_available_subwindow (a b a' b' : date) (e : Equipment.t) :
  (a <= a')%Z -> (b' <= b)%Z ->
  is_available a b e = true -> is_available a' b' e = true.
Proof.
  intros Ha Hb. rewrite !is_available_true.
  intros [Hs [H|(s & t & H1 & H2 & H)]]; split; auto.
  right. exists s, t. repeat split; auto. lia.
Qed.

Lemma is_available_subwindow_witness :
  is_available d_2024_02_01 d_2024_02_01
    (excavator 8 "Camp3" "ReadyToUse" (Some d_2024_01_05) (Some d_2024_01_15))
  = true.
Proof.
  apply (is_available_subwindow d_2024_01_20 d_2024_02_05
           d_2024_02_01 d_2024_02_01).
  - unfold d_2024_01_20, d_2024_02_01. lia.
  - unfold d_2024_02_01, d_2024_02_05. lia.
  - reflexivity.
Defined.

(** X2. For a unit that is ready and planned from [s] to [t], and a request
    from [a] to [b], both in order, the unit is unavailable exactly when
    some day lies in both windows. *)
Theorem is_available_common_day (a b s t : date) (e : Equipment.t) :
  Equipment.status e = "ReadyToUse" ->
  Equipment.start_date e = Some s -> Equipment.end_date e = Some t ->
  (s <= t)%Z -> (a <= b)%Z ->
  (is_available a b e = false <->
   exists d, (s <= d <= t)%Z /\ (a <= d <= b)%Z).
Proof.
  intros Hst Hs Ht Hst' Hab.
  rewrite <- not_true_iff_false, is_available_true, Hs, Ht. split.
  - intros H. exists (Z.max s a).
    destruct (Z_le_gt_dec s b) as [H1|H1], (Z_le_gt_dec a t) as [H2|H2];
      try lia; exfalso; apply H; (split; [exact Hst|]); right;
        exists s, t; repeat split; lia.
  - intros (d & H1 & H2) [_ [[H|H]|(s' & t' & [= <-] & [= <-] & H)]];
      try discriminate. lia.
Qed.

Lemma is_available_common_day_witness :
  is_available d_2024_01_10 d_2024_01_20
    (excavator 8 "Camp3" "ReadyToUse" (Some d_2024_01_05) (Some d_2024_01_15))
  = false <->
  exists d, (d_2024_01_05 <= d <= d_2024_01_15)%Z
            /\ (d_2024_01_10 <= d <= d_2024_01_20)%Z.
Proof.
  apply (is_available_common_day d_2024_01_10 d_2024_01_20
           d_2024_01_05 d_2024_01_15).
  - reflexivity.
  - reflexivity.
  - reflexivity.
  - unfold d_2024_01_05, d_2024_01_15. lia.
  - unfold d_2024_01_10, d_2024_01_20. lia.
Defined.

(** ** The distance *)

Lemma asin_abs_sin x :
  (- (PI / 2) <= x <= PI / 2)%R -> asin (Rabs (sin x)) = Rabs x.
Proof.
  intros Hx. destruct (Rle_dec 0 x) as [H0|H0].
  - rewrite (Rabs_pos_eq x) by exact H0.
    rewrite Rabs_pos_eq; [apply asin_sin; lra|].
    apply sin_ge_0; pose proof PI_RGT_0; lra.
  - rewrite (Rabs_left x) by lra.
    assert (Hs : (0 <= sin (- x))%R)
      by (apply sin_ge_0; pose proof PI_RGT_0; lra).
    rewrite Rabs_left1 by (rewrite sin_neg in Hs; lra).
    rewrite <- sin_neg. apply asin_sin. lra.
Qed.

Lemma sqrt_pow2_abs x : sqrt (x ^ 2) = Rabs x.
Proof. replace (x ^ 2)%R with (Rsqr x) by (unfold Rsqr; ring). apply sqrt_Rsqr_abs. Qed.

(** X3. Along a meridian (equal longitudes) the distance is the length of
    the arc, 6371 km times the difference of latitude in radians, as long as
    the latitudes differ by at most 180 degrees; the same holds along the
    equator for longitudes. *)
Theorem haversine_km_arc :
  (forall lat1 lat2 lon,
     (Rabs (lat2 - lat1) <= 180)%R ->
     haversine_km (Some lat1) (Some lon) (Some lat2) (Some lon)
     = Some (6371 * radians (Rabs (lat2 - lat1)))%R)
  /\ (forall lon1 lon2,
        (Rabs (lon2 - lon1) <= 180)%R ->
        haversine_km (Some 0%R) (Some lon1) (Some 0%R) (Some lon2)
        = Some (6371 * radians (Rabs (lon2 - lon1)))%R).
Proof.
  assert (Harc : forall x, (Rabs x <= 180)%R ->
            (2 * 6371 * asin (sqrt (sin (radians x / 2) ^ 2))
             = 6371 * radians (Rabs x))%R).
  { intros x Hx. rewrite sqrt_pow2_abs, asin_abs_sin.
    - unfold radians. pose proof PI_RGT_0.
      replace (x * (PI / 180) / 2)%R with (x * (PI / 360))%R by field.
      rewrite Rabs_mult, (Rabs_pos_eq (PI / 360)) by lra. field.
    - unfold radians. pose proof PI_RGT_0.
      replace (x * (PI / 180) / 2)%R with (x * (PI / 360))%R by field.
      revert Hx. unfold Rabs. destruct (Rcase_abs x); intros Hx; nra. }
  split.
  - intros lat1 lat2 lon H. rewrite haversine_km_some. f_equal.
    replace (radians (lon - lon) / 2)%R with 0%R by (unfold radians; field).
    rewrite sin_0, <- (Harc _ H). do 3 f_equal. ring.
  - intros lon1 lon2 H. rewrite haversine_km_some. f_equal.
    replace (radians (0 - 0) / 2)%R with 0%R by (unfold radians; field).
    replace (radians 0) with 0%R by (unfold radians; ring).
    rewrite sin_0, cos_0, <- (Harc _ H). do 3 f_equal. ring.
Qed.

(** X4. The distance from a point to its antipode is half the circumference,
    6371 * pi km; shifting both longitudes by the same angle or mirroring
    both latitudes leaves a distance unchanged. *)
Theorem haversine_km_antipode_invariance (lat1 lon1 lat2 lon2 delta : R) :
  haversine_km (Some lat1) (Some lon1) (Some (- lat1)%R) (Some (lon1 + 180)%R)
  = Some (6371 * PI)%R
  /\ haversine_km (Some lat1) (Some (lon1 + delta)%R)
       (Some lat2) (Some (lon2 + delta)%R)
     = haversine_km (Some lat1) (Some lon1) (Some lat2) (Some lon2)
  /\ haversine_km (Some (- lat1)%R) (Some lon1) (Some (- lat2)%R) (Some lon2)
     = haversine_km (Some lat1) (Some lon1) (Some lat2) (Some lon2).
Proof.
  split; [|split].
  - rewrite haversine_km_some. f_equal.
    replace (radians (- lat1 - lat1) / 2)%R with (- radians lat1)%R
      by (unfold radians; field).
    replace (radians (lon1 + 180 - lon1) / 2)%R with (PI / 2)%R
      by (unfold radians; field).
    replace (radians (- lat1)) with (- radians lat1)%R
      by (unfold radians; ring).
    rewrite sin_neg, cos_neg, sin_PI2.
    pose proof (sin2_cos2 (radians lat1)) as H. unfold Rsqr in H.
    replace ((- sin (radians lat1)) ^ 2
             + cos (radians lat1) * cos (radians lat1) * 1 ^ 2)%R
      with 1%R by nra.
    rewrite sqrt_1, asin_1. field.
  - rewrite !haversine_km_some.
    replace (lon2 + delta - (lon1 + delta))%R with (lon2 - lon1)%R by ring.
    reflexivity.
  - rewrite !haversine_km_some. do 4 f_equal.
    replace (radians (- lat2 - - lat1) / 2)%R
      with (- (radians (lat2 - lat1) / 2))%R by (unfold radians; field).
    replace (radians (- lat1)) with (- radians lat1)%R
      by (unfold radians; ring).
    replace (radians (- lat2)) with (- radians lat2)%R
      by (unfold radians; ring).
    rewrite sin_neg, !cos_neg. ring.
Qed.

(** ** Runs of [check_demand] *)

(** X5. The quantity is not validated: when the camp exists, a request for
    zero or fewer units is met, shows no map and has no alternatives,
    whatever the store holds. *)
Theorem check_demand_nonpositive_quantity c n s e q r st home :
  home_workshop c st = Some home ->
  (q <= 0)%Z ->
  exists res,
    check_demand c n s e q r st
    = ([SelectWorkshopFirst c; SelectEquipmentAll c n], inr res) /\
    Availability.meets_requirement (Result.availability res) = true /\
    Ui.show_map (Result.ui res) = false /\
    Result.alternatives res = [].
Proof.
  intros Hh Hq. rewrite check_demand_run, Hh. cbv zeta.
  assert (Hm : meets c n s e q st = true).
  { unfold meets, available_home. rewrite Z.geb_leb. apply Z.leb_le. lia. }
  rewrite Hm. eexists. split; [reflexivity|]. simpl. rewrite Hm. auto.
Qed.

Lemma check_demand_nonpositive_quantity_witness :
  exists res,
    check_demand "Camp1" "Bulldozer" d_2024_01_01 d_2024_01_10 0 15 store_a
    = ([SelectWorkshopFirst "Camp1"; SelectEquipmentAll "Camp1" "Bulldozer"],
       inr res) /\
    Availability.meets_requirement (Result.availability res) = true /\
    Ui.show_map (Result.ui res) = false /\
    Result.alternatives res = [].
Proof.
  apply (check_demand_nonpositive_quantity "Camp1" "Bulldozer" d_2024_01_01
           d_2024_01_10 0 15 store_a ws_camp1).
  - reflexivity.
  - lia.
Defined.

Lemma in_alternatives c n s e q r st home res :
  home_workshop c st = Some home ->
  snd (check_demand c n s e q r st) = inr res ->
  forall x,
    In x (Result.alternatives res) <->
    meets c n s e q st = false /\
    exists ws, In ws (workshops st) /\ alt_of c n s e r home st ws = Some x.
Proof.
  intros Hh Hrun x.
  apply check_demand_ok in Hrun as (home' & Hh' & -> & _).
  rewrite Hh in Hh'. injection Hh' as <-. simpl.
  destruct (meets c n s e q st).
  - split; [intros []|intros [H _]; discriminate].
  - rewrite <- in_map_some. split.
    + intros H. split; [reflexivity|].
      eapply Permutation_in; [|exact H]. apply sort_perm.
    + intros [_ H].
      eapply Permutation_in; [|exact H]. apply Permutation_sym, sort_perm.
Qed.

(** X6. Enlarging the radius never removes an alternative and does not
    change the home count: every entry found within [r] is found, unchanged,
    within any [r'] at least as large. *)
Theorem check_demand_radius_monotone c n s e q r r' st res res' :
  (r <= r')%R ->
  snd (check_demand c n s e q r st) = inr res ->
  snd (check_demand c n s e q r' st) = inr res' ->
  Result.availability res' = Result.availability res
  /\ incl (Result.alternatives res) (Result.alternatives res').
Proof.
  intros Hr Hrun Hrun'.
  destruct (check_demand_ok _ _ _ _ _ _ _ _ Hrun) as (home & Hh & Hres & _).
  destruct (check_demand_ok _ _ _ _ _ _ _ _ Hrun') as (home' & Hh' & Hres' & _).
  split; [subst res res'; reflexivity|].
  intros x Hx.
  apply (in_alternatives c n s e q r st home res Hh Hrun) in Hx
    as (Hm & ws & Hws & Hx).
  apply (in_alternatives c n s e q r' st home res' Hh Hrun').
  split; [exact Hm|]. exists ws. split; [exact Hws|].
  apply alt_of_some in Hx as (d & H1 & H2 & H3 & ->).
  apply alt_of_intro; [assumption..|lra].
Qed.

Lemma alt_queries_entries c n s e r home st wss :
  flat_map (alt_queries c n s e r home st) wss
  = map (fun x => SelectEquipmentAll (Alternative.camp_name x) n)
      (map_some (alt_of c n s e r home st) wss).
Proof.
  induction wss as [|ws wss IH]; [reflexivity|]. simpl.
  unfold alt_queries at 1.
  destruct (alt_of c n s e r home st ws) as [x|] eqn:E; simpl; rewrite IH.
  - apply alt_of_some in E as (d & _ & _ & _ & ->). reflexivity.
  - reflexivity.
Qed.

(** X7. A run whose demand is unmet lists the workshops once and then issues
    exactly one equipment query per alternative of the result, for that
    alternative's camp name and the requested type; a run that raises has
    issued the workshop lookup only. *)
Theorem check_demand_queries c n s e q r st :
  match snd (check_demand c n s e q r st) with
  | inl _ => fst (check_demand c n s e q r st) = [SelectWorkshopFirst c]
  | inr res =>
      Availability.meets_requirement (Result.availability res) = false ->
      exists qs,
        fst (check_demand c n s e q r st)
        = SelectWorkshopFirst c :: SelectEquipmentAll c n
            :: SelectWorkshopAll :: qs /\
        Permutation qs
          (map (fun x => SelectEquipmentAll (Alternative.camp_name x) n)
             (Result.alternatives res)) /\
        List.length (fst (check_demand c n s e q r st))
        = (3 + List.length (Result.alternatives res))%nat
  end.
Proof.
  rewrite check_demand_run.
  destruct (home_workshop c st) as [home|]; [|reflexivity]. cbv zeta.
  destruct (meets c n s e q st) eqn:Hm; simpl; rewrite Hm; [discriminate|].
  intros _. eexists. split; [reflexivity|].
  rewrite alt_queries_entries. split.
  - apply Permutation_map, Permutation_sym, sort_perm.
  - rewrite length_map. do 3 f_equal.
    apply Permutation_length, Permutation_sym, sort_perm.
Qed.

(** X8. When the requested camp name has no wildcard, no alternative is a
    camp the request names: the home camp is never offered as its own
    alternative. *)
Theorem check_demand_home_excluded c n s e q r st res :
  Str.plain c = true ->
  snd (check_demand c n s e q r st) = inr res ->
  forall x, In x (Result.alternatives res) ->
            Str.ilike (Alternative.camp_name x) c = false.
Proof.
  intros Hp Hrun x Hx.
  destruct (check_demand_ok _ _ _ _ _ _ _ _ Hrun) as (home & Hh & Hres & Hlog).
  destruct (proj1 (in_alternatives c n s e q r st home res Hh Hrun x) Hx)
    as (Hm & ws & Hws & Hx').
  apply alt_of_some in Hx' as (d & Hne & _ & _ & ->). simpl.
  rewrite ilike_plain by exact Hp. unfold Str.eq_nocase.
  apply String.eqb_neq. intros Heq. apply Hne.
  now apply lower_eq_py_lower.
Qed.

Lemma check_demand_home_excluded_witness :
  Str.ilike (Alternative.camp_name alt_camp3) "Camp1" = false.
Proof.
  apply (check_demand_home_excluded "Camp1" "Excavator" d_2024_01_10
           d_2024_01_20 5 15 store_b result_b).
  - reflexivity.
  - exact run_store_b.
  - left. reflexivity.
Defined.

Lemma run_store_b_at r :
  (0 <= r)%R ->
  snd (check_demand "Camp1" "Excavator" d_2024_01_10 d_2024_01_20 5 r store_b)
  = inr (result_b_at r).
Proof.
  intros Hr. rewrite check_demand_run.
  change (home_workshop "Camp1" store_b) with (Some ws_camp1). cbv zeta.
  assert (Hm : meets "Camp1" "Excavator" d_2024_01_10 d_2024_01_20 5 store_b
               = false) by reflexivity.
  rewrite Hm. simpl snd. f_equal.
  unfold Result.set_alternatives, home_result. rewrite Hm.
  change (available_home "Camp1" "Excavator" d_2024_01_10 d_2024_01_20 store_b)
    with 2%Z.
  unfold result_b_at. f_equal.
  change (workshops store_b) with [ws_camp1; ws_camp2; ws_camp3; ws_camp4].
  assert (H2 : alt_of "Camp1" "Excavator" d_2024_01_10 d_2024_01_20 r
                 ws_camp1 store_b ws_camp2 = Some alt_camp2).
  { rewrite alt_of_intro with (d := 0%R).
    - rewrite round1_0. reflexivity.
    - discriminate.
    - apply haversine_km_same.
    - exact Hr. }
  assert (H3 : alt_of "Camp1" "Excavator" d_2024_01_10 d_2024_01_20 r
                 ws_camp1 store_b ws_camp3 = Some alt_camp3).
  { rewrite alt_of_intro with (d := 0%R).
    - rewrite round1_0. reflexivity.
    - discriminate.
    - apply haversine_km_same.
    - exact Hr. }
  cbn [map_some]. rewrite H2, H3.
  cbn [sort insert].
  assert (Hlt : tuple_lt (alt_key alt_camp3) (alt_key alt_camp2) = true).
  { apply tuple_lt_true. right. split; reflexivity. }
  rewrite Hlt. reflexivity.
Qed.

Lemma check_demand_radius_monotone_witness :
  Result.availability (result_b_at 100) = Result.availability (result_b_at 0)
  /\ incl (Result.alternatives (result_b_at 0))
          (Result.alternatives (result_b_at 100)).
Proof.
  apply (check_demand_radius_monotone "Camp1" "Excavator" d_2024_01_10
           d_2024_01_20 5 0 100 store_b).
  - lra.
  - apply run_store_b_at. lra.
  - apply run_store_b_at. lra.
Defined.

Lemma filter_length_le {A} (p : A -> bool) l :
  (List.length (filter p l) <= List.length l)%nat.
Proof.
  induction l as [|x l IH]; simpl; [lia|]. destruct (p x); simpl; lia.
Qed.

Lemma filter_disjoint_length {A} (p1 p2 : A -> bool) l :
  (forall x, p1 x = true -> p2 x = false) ->
  (List.length (filter p1 l) + List.length (filter p2 l)
   <= List.length l)%nat.
Proof.
  intros Hd. induction l as [|x l IH]; simpl; [lia|].
  destruct (p1 x) eqn:E1.
  - rewrite (Hd x E1). simpl. lia.
  - destruct (p2 x); simpl; lia.
Qed.

Lemma count_if_disjoint {A} (p1 p2 : A -> bool) l :
  (forall x, p1 x = true -> p2 x = false) ->
  (0 <= count_if p1 l)%Z /\ (0 <= count_if p2 l)%Z
  /\ (count_if p1 l + count_if p2 l <= Z.of_nat (List.length l))%Z.
Proof.
  intros Hd. unfold count_if.
  pose proof (filter_disjoint_length p1 p2 l Hd). lia.
Qed.

(** X9. Counts are bounded by the store: the home count lies between 0 and
    the number of equipment rows, and in every alternative both counts are
    non-negative and together do not exceed the number of equipment rows (no
    row is counted as ready and as under maintenance). *)
Theorem check_demand_count_bounds c n s e q r st res :
  snd (check_demand c n s e q r st) = inr res ->
  (0 <= Availability.available (Result.availability res)
   <= Z.of_nat (List.length (equipment st)))%Z
  /\ forall x, In x (Result.alternatives res) ->
       (0 <= Counts.ready_to_use (Alternative.counts x))%Z
       /\ (0 <= Counts.under_maintenance (Alternative.counts x))%Z
       /\ (Counts.ready_to_use (Alternative.counts x)
           + Counts.under_maintenance (Alternative.counts x)
           <= Z.of_nat (List.length (equipment st)))%Z.
Proof.
  intros Hrun.
  destruct (check_demand_ok _ _ _ _ _ _ _ _ Hrun) as (home & Hh & Hres & Hlog).
  split.
  - subst res. simpl. unfold available_home, matching.
    pose proof (filter_length_le (is_available s e)
                  (filter (fun x => Str.ilike (Equipment.equipment_name x) n)
                     (filter (fun x => Str.ilike (Equipment.camp_name x) c)
                        (equipment st)))).
    pose proof (filter_length_le
                  (fun x => Str.ilike (Equipment.equipment_name x) n)
                  (filter (fun x => Str.ilike (Equipment.camp_name x) c)
                     (equipment st))).
    pose proof (filter_length_le
                  (fun x => Str.ilike (Equipment.camp_name x) c)
                  (equipment st)).
    lia.
  - intros x Hx.
    destruct (proj1 (in_alternatives c n s e q r st home res Hh Hrun x) Hx)
      as (Hm & ws & Hws & Hx').
    apply alt_of_some in Hx' as (d & _ & _ & _ & ->). simpl.
    pose proof (count_if_disjoint (ready_pred s e) maint_pred
                  (matching n (Workshop.camp_name ws) st)) as Hc.
    assert (Hd : forall y, ready_pred s e y = true -> maint_pred y = false).
    { intros y. unfold ready_pred, maint_pred.
      rewrite andb_true_iff, String.eqb_eq. intros [-> _]. reflexivity. }
    specialize (Hc Hd). unfold matching in *.
    pose proof (filter_length_le
                  (fun x => Str.ilike (Equipment.equipment_name x) n)
                  (filter (fun x => Str.ilike (Equipment.camp_name x)
                                      (Workshop.camp_name ws))
                     (equipment st))).
    pose proof (filter_length_le
                  (fun x => Str.ilike (Equipment.camp_name x)
                              (Workshop.camp_name ws))
                  (equipment st)).
    lia.
Qed.

Lemma check_demand_count_bounds_witness :
  (0 <= Availability.available (Result.availability result_b)
   <= Z.of_nat (List.length (equipment store_b)))%Z
  /\ forall x, In x (Result.alternatives result_b) ->
       (0 <= Counts.ready_to_use (Alternative.counts x))%Z
       /\ (0 <= Counts.under_maintenance (Alternative.counts x))%Z
       /\ (Counts.ready_to_use (Alternative.counts x)
           + Counts.under_maintenance (Alternative.counts x)
           <= Z.of_nat (List.length (equipment store_b)))%Z.
Proof.
  exact (check_demand_count_bounds "Camp1" "Excavator" d_2024_01_10
           d_2024_01_20 5 15 store_b result_b run_store_b).
Defined.

Lemma ilike_lower col p p' :
  Str.lower p = Str.lower p' -> Str.ilike col p = Str.ilike col p'.
Proof. unfold Str.ilike. now intros ->. Qed.

(** X10. The case of the letters A-Z in the request does not matter: two
    requests whose camp names and equipment types agree once the database's
    [lower] (which folds A-Z and nothing else) is applied fail together, and
    otherwise report the same availability, the same map hint and the same
    alternatives. *)
Theorem check_demand_case_insensitive c c' n n' s e q r st :
  Str.lower c = Str.lower c' -> Str.lower n = Str.lower n' ->
  match snd (check_demand c n s e q r st),
        snd (check_demand c' n' s e q r st) with
  | inl _, inl _ => True
  | inr res, inr res' =>
      Result.availability res = Result.availability res'
      /\ Result.ui res = Result.ui res'
      /\ Result.alternatives res = Result.alternatives res'
  | _, _ => False
  end.
Proof.
  intros Hc Hn. rewrite !check_demand_run.
  assert (Hh : home_workshop c st = home_workshop c' st).
  { unfold home_workshop, Str.ilike. now rewrite Hc. }
  assert (Hmt : forall camp, matching n camp st = matching n' camp st).
  { intros camp. unfold matching, Str.ilike. now rewrite Hn. }
  assert (Ha : available_home c n s e st = available_home c' n' s e st).
  { unfold available_home. rewrite Hmt. unfold matching, Str.ilike.
    now rewrite Hc. }
  assert (Hm : meets c n s e q st = meets c' n' s e q st).
  { unfold meets. now rewrite Ha. }
  rewrite <- Hh. destruct (home_workshop c st) as [home|]; [|exact I].
  cbv zeta. rewrite <- Hm.
  assert (Hal : forall ws, alt_of c n s e r home st ws
                           = alt_of c' n' s e r home st ws).
  { intros ws. unfold alt_of.
    now rewrite (lower_eq_py_lower _ _ Hc), Hmt. }
  destruct (meets c n s e q st) eqn:Em; simpl; rewrite <- Ha, <- Hm, Em;
    (split; [reflexivity|]); (split; [reflexivity|]); [reflexivity|].
  f_equal. induction (workshops st) as [|ws wss IH]; [reflexivity|].
  simpl. now rewrite Hal, IH.
Qed.

Lemma check_demand_case_insensitive_witness :
  match snd (check_demand "Camp1" "Excavator" d_2024_01_10 d_2024_01_20 5 15
               store_b),
        snd (check_demand "CAMP1" "excavator" d_2024_01_10 d_2024_01_20 5 15
               store_b) with
  | inl _, inl _ => True
  | inr res, inr res' =>
      Result.availability res = Result.availability res'
      /\ Result.ui res = Result.ui res'
      /\ Result.alternatives res = Result.alternatives res'
  | _, _ => False
  end.
Proof.
  apply (check_demand_case_insensitive "Camp1" "CAMP1" "Excavator" "excavator").
  - reflexivity.
  - reflexivity.
Defined.

(** * The equipment listing *)

Lemma lower_append a b : Str.lower (a ++ b) = Str.lower a ++ Str.lower b.
Proof. induction a as [|c a IH]; simpl; [reflexivity|]. now rewrite IH. Qed.

Lemma like_percent s : Str.like "%" s = true.
Proof. induction s as [|c s IH]; [reflexivity|]. simpl in *. exact IH. Qed.

Lemma like_plain_prefix p :
  Str.plain p = true ->
  forall s, Str.like (p ++ "%") s = Str.prefix_of p s.
Proof.
  induction p as [|c p IH]; intros Hp s.
  - apply like_percent.
  - simpl in Hp. apply andb_true_iff in Hp as [Hc Hp].
    apply andb_true_iff in Hc as [Hc1 Hc2].
    apply negb_true_iff in Hc1, Hc2.
    simpl. rewrite Hc1. destruct s as [|d s]; [reflexivity|].
    rewrite Hc2, (IH Hp). reflexivity.
Qed.

Lemma like_substring p :
  Str.plain p = true ->
  forall s, Str.like (substring_pattern p) s = Str.contains s p.
Proof.
  intros Hp s. unfold substring_pattern. simpl.
  induction s as [|c s IH]; simpl.
  - now rewrite like_plain_prefix.
  - rewrite like_plain_prefix by exact Hp. now rewrite IH.
Qed.

(** With text free of wildcards, [ilike(f"%{text}%")] is the
    case-insensitive substring test. *)
Lemma ilike_substring col x :
  Str.plain x = true ->
  Str.ilike col (substring_pattern x) = Str.contains_nocase col x.
Proof.
  intros Hp. unfold Str.ilike, Str.contains_nocase.
  replace (Str.lower (substring_pattern x))
    with (substring_pattern (Str.lower x)).
  - apply like_substring. now rewrite plain_lower.
  - unfold substring_pattern. now rewrite !lower_append.
Qed.

Lemma filter_true {A} (l : list A) : filter (fun _ => true) l = l.
Proof. induction l as [|x l IH]; simpl; [reflexivity|]. now rewrite IH. Qed.

Lemma where_if_filter {A P} (cond : option P) (pred : P -> A -> bool) q :
  where_if cond pred q = filter (test_if cond pred) q.
Proof.
  destruct cond as [p|]; simpl; [reflexivity|].
  symmetry. apply filter_true.
Qed.

Lemma test_if_true {A P} (cond : option P) (pred : P -> A -> bool) e :
  test_if cond pred e = true <-> forall p, cond = Some p -> pred p e = true.
Proof.
  destruct cond as [p|]; simpl; split; auto.
  - intros H p' [= <-]. exact H.
  - discriminate.
Qed.

Lemma nonempty_some s x : nonempty s = Some x <-> s = Some x /\ x <> "".
Proof.
  destruct s as [[|c s]|]; simpl; split; try discriminate.
  - intros [[= <-] H]. contradiction.
  - intros [= <-]. split; [reflexivity|discriminate].
  - intros [H _]. exact H.
  - intros [H _]. discriminate.
Qed.

Lemma null_or_true {V} (col : option V) test :
  null_or col test = true <-> exists v, col = Some v /\ test v = true.
Proof.
  destruct col as [v|]; simpl; split.
  - intros H. now exists v.
  - intros (v' & [= <-] & H). exact H.
  - discriminate.
  - intros (v' & H & _). discriminate.
Qed.

(** The conjunction of the tests of the filter chain. *)
Lemma list_equipment_filter p st :
  exists f,
    list_equipment p st
    = sort Equipment.equipment_id Z.ltb (filter f (equipment st))
    /\ forall e, f e = true <-> accepts p e.
Proof.
  unfold list_equipment. cbv zeta. rewrite !where_if_filter, !filter_and.
  eexists. split; [reflexivity|].
  intros e. cbv beta. rewrite !andb_true_iff, !test_if_true. unfold accepts.
  split.
  - intros (H1 & H2 & H3 & H4 & H5 & H6 & H7 & H8 & H9 & H10 & H11).
    repeat split.
    + intros i Hi. apply Z.eqb_eq. now apply H1.
    + intros x Hx Hne. apply H2. now apply nonempty_some.
    + intros x Hx Hne. apply H3. now apply nonempty_some.
    + intros x Hx Hne. apply null_or_true. apply H4. now apply nonempty_some.
    + intros x Hx Hne. apply String.eqb_eq. apply H5. now apply nonempty_some.
    + intros d Hd. apply H6 in Hd. apply null_or_true in Hd as (v & Hv & H).
      exists v. split; [exact Hv|]. now apply Z.leb_le.
    + intros d Hd. apply H7 in Hd. apply null_or_true in Hd as (v & Hv & H).
      exists v. split; [exact Hv|]. now apply Z.leb_le.
    + intros d Hd. apply H8 in Hd. apply null_or_true in Hd as (v & Hv & H).
      exists v. split; [exact Hv|]. now apply Z.leb_le.
    + intros d Hd. apply H9 in Hd. apply null_or_true in Hd as (v & Hv & H).
      exists v. split; [exact Hv|]. now apply Z.leb_le.
    + intros d Hd. apply H10 in Hd. apply null_or_true in Hd as (v & Hv & H).
      exists v. split; [exact Hv|]. now apply Z.leb_le.
    + intros d Hd. apply H11 in Hd. apply null_or_true in Hd as (v & Hv & H).
      exists v. split; [exact Hv|]. now apply Z.leb_le.
  - intros (H1 & H2 & H3 & H4 & H5 & H6 & H7 & H8 & H9 & H10 & H11).
    repeat split.
    + intros i Hi. apply Z.eqb_eq. now apply H1.
    + intros x Hx. apply nonempty_some in Hx as [Hx Hne]. now apply H2.
    + intros x Hx. apply nonempty_some in Hx as [Hx Hne]. now apply H3.
    + intros x Hx. apply nonempty_some in Hx as [Hx Hne].
      apply null_or_true. now apply H4.
    + intros x Hx. apply nonempty_some in Hx as [Hx Hne].
      apply String.eqb_eq. now apply H5.
    + intros d Hd. apply null_or_true. destruct (H6 d Hd) as (v & Hv & H).
      exists v. split; [exact Hv|]. now apply Z.leb_le.
    + intros d Hd. apply null_or_true. destruct (H7 d Hd) as (v & Hv & H).
      exists v. split; [exact Hv|]. now apply Z.leb_le.
    + intros d Hd. apply null_or_true. destruct (H8 d Hd) as (v & Hv & H).
      exists v. split; [exact Hv|]. now apply Z.leb_le.
    + intros d Hd. apply null_or_true. destruct (H9 d Hd) as (v & Hv & H).
      exists v. split; [exact Hv|]. now apply Z.leb_le.
    + intros d Hd. apply null_or_true. destruct (H10 d Hd) as (v & Hv & H).
      exists v. split; [exact Hv|]. now apply Z.leb_le.
    + intros d Hd. apply null_or_true. destruct (H11 d Hd) as (v & Hv & H).
      exists v. split; [exact Hv|]. now apply Z.leb_le.
Qed.



Lemma in_list_equipment p st e :
  In e (list_equipment p st) <-> In e (equipment st) /\ accepts p e.
Proof.
  destruct (list_equipment_filter p st) as (f & -> & Hf).
  rewrite <- Hf, <- filter_In. split; intros H.
  - eapply Permutation_in; [|exact H]. apply sort_perm.
  - eapply Permutation_in; [|exact H]. apply Permutation_sym, sort_perm.
Qed.


(** X12. The text filters are substring searches: for a requested text
    without wildcards, [ilike(f"%{text}%")] holds exactly when the column
    contains the text, letter case ignored; so every row returned for such an
    equipment name, camp name or region contains it. *)
Theorem list_equipment_substring (p : ListEquipment.params) (st : Store)
        (e : Equipment.t) (x : string) :
  Str.plain x = true -> x <> "" ->
  In e (list_equipment p st) ->
  (forall col, Str.ilike col (substring_pattern x)
               = Str.contains_nocase col x)
  /\ (ListEquipment.equipment_name p = Some x ->
      Str.contains_nocase (Equipment.equipment_name e) x = true)
  /\ (ListEquipment.camp_name p = Some x ->
      Str.contains_nocase (Equipment.camp_name e) x = true)
  /\ (ListEquipment.region p = Some x ->
      exists r, Equipment.region e = Some r
                /\ Str.contains_nocase r x = true).
Proof.
  intros Hp Hne Hin.
  apply in_list_equipment in Hin as [_ (_ & H2 & H3 & H4 & _)].
  split; [intros col; now apply ilike_substring|].
  split; [|split].
  - intros Hx. rewrite <- ilike_substring by exact Hp. now apply H2.
  - intros Hx. rewrite <- ilike_substring by exact Hp. now apply H3.
  - intros Hx. destruct (H4 x Hx Hne) as (r & Hr & H).
    exists r. split; [exact Hr|]. now rewrite <- ilike_substring.
Qed.

Lemma list_equipment_substring_witness :
  (forall col, Str.ilike col (substring_pattern "CAV")
               = Str.contains_nocase col "CAV")
  /\ (ListEquipment.equipment_name excavator_search = Some "CAV" ->
      Str.contains_nocase
        (Equipment.equipment_name (excavator 1 "Camp1" "ReadyToUse" None None))
        "CAV" = true)
  /\ (ListEquipment.camp_name excavator_search = Some "CAV" ->
      Str.contains_nocase
        (Equipment.camp_name (excavator 1 "Camp1" "ReadyToUse" None None))
        "CAV" = true)
  /\ (ListEquipment.region excavator_search = Some "CAV" ->
      exists r,
        Equipment.region (excavator 1 "Camp1" "ReadyToUse" None None) = Some r
        /\ Str.contains_nocase r "CAV" = true).
Proof.
  apply (list_equipment_substring excavator_search store_a).
  - reflexivity.
  - discriminate.
  - apply in_list_equipment. split; [left; reflexivity|].
    unfold accepts, excavator_search. simpl.
    repeat split; try discriminate.
    intros x [= <-] _. reflexivity.
Defined.

(** X13. A request that asks for everything another asks for returns a part
    of what the other returns, and a request without parameters returns the
    whole table. *)
Theorem list_equipment_narrows (p p' : ListEquipment.params) (st : Store) :
  narrows p' p ->
  incl (list_equipment p' st) (list_equipment p st)
  /\ incl (list_equipment p st) (list_equipment ListEquipment.none st)
  /\ Permutation (list_equipment ListEquipment.none st) (equipment st).
Proof.
  intros (N1 & N2 & N3 & N4 & N5 & N6 & N7 & N8 & N9 & N10 & N11).
  split; [|split].
  - intros e. rewrite !in_list_equipment.
    intros [Hin (A1 & A2 & A3 & A4 & A5 & A6 & A7 & A8 & A9 & A10 & A11)].
    split; [exact Hin|]. unfold accepts. repeat split.
    + intros i Hi. exact (A1 i (N1 i Hi)).
    + intros x Hx Hne. apply A2; [|exact Hne]. apply N2. now apply nonempty_some.
    + intros x Hx Hne. apply A3; [|exact Hne]. apply N3. now apply nonempty_some.
    + intros x Hx Hne. apply A4; [|exact Hne]. apply N4. now apply nonempty_some.
    + intros x Hx Hne. apply A5; [|exact Hne]. apply N5. now apply nonempty_some.
    + intros d Hd. exact (A6 d (N6 d Hd)).
    + intros d Hd. exact (A7 d (N7 d Hd)).
    + intros d Hd. exact (A8 d (N8 d Hd)).
    + intros d Hd. exact (A9 d (N9 d Hd)).
    + intros d Hd. exact (A10 d (N10 d Hd)).
    + intros d Hd. exact (A11 d (N11 d Hd)).
  - intros e. rewrite !in_list_equipment. intros [Hin _].
    split; [exact Hin|]. unfold accepts. simpl. repeat split; discriminate.
  - unfold list_equipment. simpl. apply sort_perm.
Qed.

Lemma list_equipment_narrows_witness :
  incl (list_equipment excavator_search_camp2 store_b)
       (list_equipment excavator_search store_b)
  /\ incl (list_equipment excavator_search store_b)
          (list_equipment ListEquipment.none store_b)
  /\ Permutation (list_equipment ListEquipment.none store_b)
       (equipment store_b).
Proof.
  apply (list_equipment_narrows excavator_search excavator_search_camp2).
  unfold narrows, excavator_search, excavator_search_camp2. simpl.
  repeat split; try discriminate; auto.
Defined.

(** * Partial updates and the admin login *)

Lemma dict_get_set {V} (d : dict V) k v k' :
  dict_get (dict_set k v d) k'
  = if String.eqb k k' then Some v else dict_get d k'.
Proof.
  induction d as [|[k0 v0] d IH]; simpl.
  - reflexivity.
  - destruct (String.eqb_spec k0 k) as [->|Hne]; simpl.
    + destruct (String.eqb k k'); reflexivity.
    + rewrite IH. destruct (String.eqb_spec k0 k') as [->|Hne'].
      * apply String.eqb_neq in Hne. rewrite String.eqb_sym in Hne.
        now rewrite Hne.
      * reflexivity.
Qed.

Lemma apply_updates_get {V} (data : dict (option V)) allowed :
  forall obj k,
    dict_get (_apply_updates obj data allowed) k
    = match dict_get data k with
      | Some (Some v) =>
          if existsb (String.eqb k) allowed then Some (Some v)
          else dict_get obj k
      | _ => dict_get obj k
      end.
Proof.
  unfold _apply_updates.
  induction allowed as [|a allowed IH]; intros obj k; simpl.
  - now destruct (dict_get data k) as [[v|]|].
  - rewrite IH.
    destruct (dict_get data k) as [[v|]|] eqn:Ek.
    + destruct (existsb (String.eqb k) allowed); [now rewrite orb_true_r|].
      rewrite orb_false_r.
      destruct (String.eqb_spec k a) as [<-|Hne].
      * rewrite Ek, dict_get_set, String.eqb_refl. reflexivity.
      * destruct (dict_get data a) as [[va|]|]; try reflexivity.
        rewrite dict_get_set. apply not_eq_sym, String.eqb_neq in Hne.
        now rewrite Hne.
    + destruct (dict_get data a) as [[va|]|] eqn:Ea; try reflexivity.
      rewrite dict_get_set.
      destruct (String.eqb_spec a k) as [->|Hne]; [congruence|reflexivity].
    + destruct (dict_get data a) as [[va|]|] eqn:Ea; try reflexivity.
      rewrite dict_get_set.
      destruct (String.eqb_spec a k) as [->|Hne]; [congruence|reflexivity].
Qed.

Lemma existsb_eqb_In k l : existsb (String.eqb k) l = true <-> In k l.
Proof.
  rewrite existsb_exists. split.
  - intros (x & Hx & He). apply String.eqb_eq in He. now subst.
  - intros H. exists k. split; [exact H|apply String.eqb_refl].
Qed.

(** X14. [_apply_updates] changes an attribute only if its name is allowed
    and the payload holds a value other than None for it, and then the
    attribute becomes that value. Names that are not allowed, keys that are
    missing and keys sent as None leave the attribute as it was. *)
Theorem apply_updates_attributes {V} (obj data : dict (option V))
        (allowed : list string) (k : string) :
  (forall v, In k allowed -> dict_get data k = Some (Some v) ->
             dict_get (_apply_updates obj data allowed) k = Some (Some v))
  /\ (~ In k allowed \/ dict_get data k = None \/ dict_get data k = Some None ->
      dict_get (_apply_updates obj data allowed) k = dict_get obj k).
Proof.
  rewrite apply_updates_get. split.
  - intros v Hin ->. apply existsb_eqb_In in Hin. now rewrite Hin.
  - intros [Hn|[->| ->]]; try reflexivity.
    destruct (dict_get data k) as [[v|]|]; try reflexivity.
    destruct (existsb (String.eqb k) allowed) eqn:E; [|reflexivity].
    apply existsb_eqb_In in E. contradiction.
Qed.

(** X15. A partial update cannot clear a field and is idempotent: an
    attribute that holds a value still holds one afterwards, applying the
    same payload twice gives the attributes of applying it once, and an empty
    payload changes nothing. *)
Theorem apply_updates_idempotent {V} (obj data : dict (option V))
        (allowed : list string) :
  (forall k v0, dict_get obj k = Some (Some v0) ->
                exists v, dict_get (_apply_updates obj data allowed) k
                          = Some (Some v))
  /\ (forall k,
        dict_get (_apply_updates (_apply_updates obj data allowed)
                    data allowed) k
        = dict_get (_apply_updates obj data allowed) k)
  /\ _apply_updates obj [] allowed = obj.
Proof.
  split; [|split].
  - intros k v0 Hk. rewrite apply_updates_get.
    destruct (dict_get data k) as [[v|]|]; eauto.
    destruct (existsb (String.eqb k) allowed); eauto.
  - intros k. rewrite !apply_updates_get.
    destruct (dict_get data k) as [[v|]|]; try reflexivity.
    destruct (existsb (String.eqb k) allowed); reflexivity.
  - unfold _apply_updates. induction allowed as [|a allowed IH]; simpl; auto.
Qed.

Lemma login_accepted form session :
  SimpleAuth.accepted form ->
  SimpleAuth.login form session = (true, dict_set "user" "admin" session).
Proof. intros [Hu Hp]. unfold SimpleAuth.login. now rewrite Hu, Hp. Qed.

Lemma login_rejected form session :
  ~ SimpleAuth.accepted form ->
  SimpleAuth.login form session = (false, session).
Proof.
  intros Hn. unfold SimpleAuth.login, SimpleAuth.accepted in *.
  destruct (dict_get form "username") as [u|]; [|reflexivity].
  destruct (String.eqb_spec u "admin") as [->|Hu]; [|reflexivity].
  destruct (dict_get form "password") as [p|]; [|reflexivity].
  destruct (String.eqb_spec p "secret") as [->|Hp]; [|reflexivity].
  exfalso. apply Hn. split; reflexivity.
Qed.

Lemma accepted_dec form :
  SimpleAuth.accepted form \/ ~ SimpleAuth.accepted form.
Proof.
  unfold SimpleAuth.accepted.
  destruct (dict_get form "username") as [u|];
    [|right; intros [H _]; discriminate].
  destruct (String.eqb_spec u "admin") as [->|Hu];
    [|right; intros [[= H] _]; contradiction].
  destruct (dict_get form "password") as [p|];
    [|right; intros [_ H]; discriminate].
  destruct (String.eqb_spec p "secret") as [->|Hp];
    [left; split; reflexivity|right; intros [_ [= H]]; contradiction].
Qed.

(** X16. [login] succeeds exactly for the user name "admin" with the
    password "secret". A successful login makes the session authenticate and
    touches no other key of it; a failed one leaves the session as it was. *)
Theorem login_credentials (form session : dict string) :
  (fst (SimpleAuth.login form session) = true <-> SimpleAuth.accepted form)
  /\ (SimpleAuth.accepted form ->
      SimpleAuth.authenticate (snd (SimpleAuth.login form session)) = true
      /\ forall k, k <> "user" ->
           dict_get (snd (SimpleAuth.login form session)) k
           = dict_get session k)
  /\ (~ SimpleAuth.accepted form ->
      snd (SimpleAuth.login form session) = session).
Proof.
  split; [|split].
  - destruct (accepted_dec form) as [H|H].
    + rewrite (login_accepted _ _ H). simpl. tauto.
    + rewrite (login_rejected _ _ H). simpl. split; [discriminate|tauto].
  - intros H. rewrite (login_accepted _ _ H). simpl. split.
    + unfold SimpleAuth.authenticate. rewrite dict_get_set. reflexivity.
    + intros k Hk. rewrite dict_get_set.
      apply not_eq_sym, String.eqb_neq in Hk. now rewrite Hk.
  - intros H. now rewrite (login_rejected _ _ H).
Qed.

Lemma run_logins_authenticated post : forall session,
  Forall SimpleAuth.is_login post ->
  SimpleAuth.authenticate session = true ->
  SimpleAuth.authenticate (fold_left SimpleAuth.step post session) = true.
Proof.
  induction post as [|r post IH]; intros session Hall Hs; [exact Hs|].
  inversion Hall as [|? ? Hr Hpost]; subst. simpl. apply IH; [exact Hpost|].
  destruct r as [form|]; [|destruct Hr]. simpl.
  destruct (accepted_dec form) as [H|H].
  - rewrite (login_accepted _ _ H). simpl.
    unfold SimpleAuth.authenticate. now rewrite dict_get_set.
  - now rewrite (login_rejected _ _ H).
Qed.

(** X17. Starting from an empty session, the session authenticates after a
    sequence of logins and logouts exactly when the sequence holds a login
    with the accepted credentials that no logout follows. *)
Theorem session_authenticated (reqs : list SimpleAuth.request) :
  SimpleAuth.authenticate (fold_left SimpleAuth.step reqs []) = true <->
  exists pre form post,
    reqs = (pre ++ SimpleAuth.Login form :: post)%list
    /\ SimpleAuth.accepted form
    /\ Forall SimpleAuth.is_login post.
Proof.
  split.
  - induction reqs as [|r reqs IH] using rev_ind; [discriminate|].
    rewrite fold_left_app. simpl. destruct r as [form|]; simpl.
    + destruct (accepted_dec form) as [H|H].
      * intros _. exists reqs, form, []. auto.
      * rewrite (login_rejected _ _ H). simpl. intros Ha.
        destruct (IH Ha) as (pre & f & post & -> & Hf & Hpost).
        exists pre, f, (post ++ [SimpleAuth.Login form])%list.
        rewrite <- app_assoc. simpl.
        split; [reflexivity|]. split; [exact Hf|].
        apply Forall_app. split; [exact Hpost|]. repeat constructor.
    + discriminate.
  - intros (pre & form & post & -> & Hf & Hpost).
    rewrite fold_left_app. simpl. apply run_logins_authenticated; [exact Hpost|].
    rewrite (login_accepted _ _ Hf). simpl.
    unfold SimpleAuth.authenticate. now rewrite dict_get_set.
Qed.

(** * The column check of the uploads *)

Lemma string_ltb_lt a b :
  String.ltb a b = true <-> OrderedTypeEx.String_as_OT.lt a b.
Proof.
  rewrite <- OrderedTypeEx.String_as_OT.cmp_lt.
  unfold OrderedTypeEx.String_as_OT.cmp, String.ltb.
  destruct (String.compare a b); split; intros H; (reflexivity || discriminate).
Qed.

Lemma string_ltb_asym a b : String.ltb a b = true -> String.ltb b a = false.
Proof.
  intros H. destruct (String.ltb b a) eqn:E; [|reflexivity].
  apply string_ltb_lt in H, E.
  pose proof (OrderedTypeEx.String_as_OT.lt_trans _ _ _ H E) as Hl.
  exfalso. exact (OrderedTypeEx.String_as_OT.lt_not_eq _ _ Hl eq_refl).
Qed.

Lemma string_ltb_total a b :
  String.ltb b a = false -> a <> b -> String.ltb a b = true.
Proof.
  unfold String.ltb. intros H Hne.
  rewrite (String.compare_antisym a b).
  destruct (String.compare b a) eqn:E; simpl in *.
  - apply String.compare_eq_iff in E. congruence.
  - discriminate.
  - reflexivity.
Qed.

Lemma string_le_trans a b c :
  String.ltb b a = false -> String.ltb c b = false -> String.ltb c a = false.
Proof.
  intros H1 H2. destruct (String.ltb c a) eqn:E; [|reflexivity].
  destruct (string_dec a b) as [->|Hab]; [congruence|].
  destruct (string_dec b c) as [->|Hbc]; [congruence|].
  pose proof (string_ltb_total _ _ H1 Hab) as L1.
  pose proof (string_ltb_total _ _ H2 Hbc) as L2.
  apply string_ltb_lt in L1, L2, E.
  pose proof (OrderedTypeEx.String_as_OT.lt_trans _ _ _ L1 L2) as L3.
  pose proof (OrderedTypeEx.String_as_OT.lt_trans _ _ _ L3 E) as L4.
  exfalso. exact (OrderedTypeEx.String_as_OT.lt_not_eq _ _ L4 eq_refl).
Qed.

Lemma sorted_nodup_strict l :
  StronglySorted (key_le (fun x : string => x) String.ltb) l -> NoDup l ->
  StronglySorted (fun a b => String.ltb a b = true) l.
Proof.
  induction 1 as [|x l Hs IH Hx]; intros Hnd; constructor.
  - apply IH. now inversion Hnd.
  - inversion Hnd as [|? ? Hnin Hnd']; subst.
    rewrite Forall_forall in *. intros y Hy.
    apply string_ltb_total; [exact (Hx y Hy)|].
    intros ->. contradiction.
Qed.

Lemma in_missing_columns columns required x :
  In x (missing_columns columns required) <->
  In x required /\ ~ In x columns.
Proof.
  unfold missing_columns. split.
  - intros H. eapply Permutation_in in H; [|apply sort_perm].
    apply nodup_In, filter_In in H as [Hr Hc]. split; [exact Hr|].
    apply negb_true_iff in Hc. intros Hin.
    apply existsb_eqb_In in Hin. congruence.
  - intros [Hr Hc].
    eapply Permutation_in; [apply Permutation_sym, sort_perm|].
    apply nodup_In, filter_In. split; [exact Hr|].
    apply negb_true_iff. destruct (existsb _ columns) eqn:E; [|reflexivity].
    apply existsb_eqb_In in E. contradiction.
Qed.

(** X18. [ensure_columns] returns normally exactly when every required
    label is a column. Otherwise it raises a 400 whose detail lists, after
    "Missing required columns: " and separated by ", ", the required labels
    that are not columns: each of them, no other, once, in ascending
    order. *)
Theorem ensure_columns_missing (columns required : list string) :
  (ensure_columns columns required = inr tt <-> incl required columns)
  /\ forall ex,
       ensure_columns columns required = inl ex ->
       status_code ex = 400%Z
       /\ exists missing,
            detail ex = "Missing required columns: " ++ join ", " missing
            /\ missing <> []
            /\ StronglySorted (fun a b => String.ltb a b = true) missing
            /\ forall x, In x missing <-> In x required /\ ~ In x columns.
Proof.
  unfold ensure_columns.
  pose proof (in_missing_columns columns required) as Hin.
  assert (Hsorted : StronglySorted (fun a b => String.ltb a b = true)
                      (missing_columns columns required)).
  { unfold missing_columns. apply sorted_nodup_strict.
    - apply sort_sorted; [apply string_ltb_asym|apply string_le_trans].
    - eapply Permutation_NoDup; [apply Permutation_sym, sort_perm|].
      apply NoDup_nodup. }
  destruct (missing_columns columns required) as [|m ms] eqn:E.
  - split; [|discriminate]. split; [|reflexivity].
    intros _ x Hx. destruct (in_dec string_dec x columns) as [H|H]; [exact H|].
    destruct (proj2 (Hin x) (conj Hx H)).
  - split.
    + split; [discriminate|]. intros Hincl.
      destruct (proj1 (Hin m) (or_introl eq_refl)) as [Hr Hc].
      destruct (Hc (Hincl m Hr)).
    + intros ex [= <-]. split; [reflexivity|].
      exists (m :: ms). repeat split; try discriminate; try assumption;
        apply Hin; assumption.
Qed.

(** * The displayed distance *)

Lemma Rabs_le_inv x y : (Rabs x <= y)%R -> (- y <= x <= y)%R.
Proof. unfold Rabs. destruct (Rcase_abs x); lra. Qed.

Lemma round_half_even_close x :
  (Rabs (IZR (round_half_even x) - x) <= 1 / 2)%R.
Proof.
  unfold round_half_even. cbv zeta.
  destruct (base_Int_part x) as [H1 H2].
  apply Rabs_le.
  destruct (Rlt_dec (x - IZR (Int_part x)) (1 / 2)) as [Ha|Ha].
  - lra.
  - destruct (Rlt_dec (1 / 2) (x - IZR (Int_part x))) as [Hb|Hb].
    + rewrite plus_IZR. simpl. lra.
    + destruct (Z.even (Int_part x)); [lra|]. rewrite plus_IZR. simpl. lra.
Qed.

Lemma round_half_even_nonneg x : (0 <= x)%R -> (0 <= round_half_even x)%Z.
Proof.
  intros Hx. unfold round_half_even. cbv zeta.
  destruct (base_Int_part x) as [H1 H2].
  assert (H0 : (0 <= Int_part x)%Z).
  { apply le_IZR. apply Rnot_lt_le. intros Hlt.
    assert (Hz : (Int_part x <= -1)%Z) by (apply lt_IZR in Hlt; lia).
    apply IZR_le in Hz. lra. }
  destruct (Rlt_dec _ _); [exact H0|].
  destruct (Rlt_dec _ _); [lia|].
  destruct (Z.even _); lia.
Qed.

Lemma round1_close d : (Rabs (round1 d - d) <= 1 / 20)%R.
Proof.
  unfold round1. pose proof (round_half_even_close (d * 10)) as H.
  apply Rabs_le. apply Rabs_le_inv in H. lra.
Qed.

Lemma round_half_even_tie x :
  Rabs (IZR (round_half_even x) - x) = (1 / 2)%R ->
  Z.even (round_half_even x) = true.
Proof.
  unfold round_half_even. cbv zeta.
  destruct (base_Int_part x) as [H1 H2].
  destruct (Rlt_dec (x - IZR (Int_part x)) (1 / 2)) as [Ha|Ha].
  - intros H. exfalso. revert H. unfold Rabs.
    destruct (Rcase_abs _); lra.
  - destruct (Rlt_dec (1 / 2) (x - IZR (Int_part x))) as [Hb|Hb].
    + intros H. exfalso. revert H. rewrite plus_IZR. unfold Rabs.
      destruct (Rcase_abs _); lra.
    + intros _. destruct (Z.even (Int_part x)) eqn:He; [exact He|].
      rewrite Z.add_1_r, Z.even_succ, <- Z.negb_even, He. reflexivity.
Qed.

(** X19. With floats read as exact reals, the distance an alternative shows
    is the true distance rounded to one decimal: it is [k / 10] for the
    integer [k] nearest to ten times the true distance, the even one of the
    two when they are equally near. So it differs from the true distance by
    at most 0.05 km, is never negative and never more than 0.05 km beyond
    the search radius. *)
Theorem check_demand_distance_shown c n s e q r st home res x :
  home_workshop c st = Some home ->
  snd (check_demand c n s e q r st) = inr res ->
  In x (Result.alternatives res) ->
  exists ws d k,
    In ws (workshops st)
    /\ Alternative.workshop_id x = Workshop.workshop_id ws
    /\ haversine_km (Workshop.location_lat home) (Workshop.location_lon home)
         (Workshop.location_lat ws) (Workshop.location_lon ws) = Some d
    /\ Alternative.distance_km x = (IZR k / 10)%R
    /\ (0 <= k)%Z
    /\ (Rabs (IZR k - d * 10) <= 1 / 2)%R
    /\ (Rabs (IZR k - d * 10) = (1 / 2)%R -> Z.even k = true)
    /\ (Rabs (Alternative.distance_km x - d) <= 1 / 20)%R
    /\ (0 <= Alternative.distance_km x <= r + 1 / 20)%R.
Proof.
  intros Hh Hrun Hx.
  destruct (proj1 (in_alternatives c n s e q r st home res Hh Hrun x) Hx)
    as (Hm & ws & Hws & Hx').
  apply alt_of_some in Hx' as (d & Hne & Hd & Hr & ->). simpl.
  assert (Hk : (0 <= round_half_even (d * 10))%Z).
  { apply round_half_even_nonneg.
    destruct (Workshop.location_lat home), (Workshop.location_lon home),
      (Workshop.location_lat ws), (Workshop.location_lon ws);
      try discriminate.
    rewrite haversine_km_some in Hd. injection Hd as <-.
    set (a := (_ + _)%R).
    pose proof (asin_nonneg (sqrt a) (sqrt_pos a)). lra. }
  exists ws, d, (round_half_even (d * 10)).
  split; [exact Hws|]. split; [reflexivity|]. split; [exact Hd|].
  split; [reflexivity|]. split; [exact Hk|].
  split; [apply round_half_even_close|].
  split; [apply round_half_even_tie|].
  split; [apply round1_close|]. split.
  - unfold round1. apply Rmult_le_pos; [|lra]. now apply IZR_le.
  - pose proof (round1_close d) as H. apply Rabs_le_inv in H. lra.
Qed.

Lemma check_demand_distance_shown_witness :
  exists ws d k,
    In ws (workshops store_b)
    /\ Alternative.workshop_id alt_camp3 = Workshop.workshop_id ws
    /\ haversine_km (Workshop.location_lat ws_camp1)
         (Workshop.location_lon ws_camp1)
         (Workshop.location_lat ws) (Workshop.location_lon ws) = Some d
    /\ Alternative.distance_km alt_camp3 = (IZR k / 10)%R
    /\ (0 <= k)%Z
    /\ (Rabs (IZR k - d * 10) <= 1 / 2)%R
    /\ (Rabs (IZR k - d * 10) = (1 / 2)%R -> Z.even k = true)
    /\ (Rabs (Alternative.distance_km alt_camp3 - d) <= 1 / 20)%R
    /\ (0 <= Alternative.distance_km alt_camp3 <= 15 + 1 / 20)%R.
Proof.
  apply (check_demand_distance_shown "Camp1" "Excavator" d_2024_01_10
           d_2024_01_20 5 15 store_b ws_camp1 result_b).
  - reflexivity.
  - exact run_store_b.
  - left. reflexivity.
Defined.

(** * The demand check and the listing *)

Lemma prefix_of_refl s : Str.prefix_of s s = true.
Proof. induction s as [|c s IH]; simpl; [reflexivity|]. now rewrite Ascii.eqb_refl. Qed.

Lemma contains_refl s : Str.contains s s = true.
Proof. destruct s; simpl; [reflexivity|]. now rewrite Ascii.eqb_refl, prefix_of_refl. Qed.

Lemma ilike_plain_contains col x :
  Str.plain x = true -> Str.ilike col x = true ->
  Str.contains_nocase col x = true.
Proof.
  intros Hp. rewrite ilike_plain by exact Hp. unfold Str.eq_nocase.
  rewrite String.eqb_eq. unfold Str.contains_nocase. intros ->.
  apply contains_refl.
Qed.

Lemma filter_length_mono {A} (f g : A -> bool) l :
  (forall x, f x = true -> g x = true) ->
  (List.length (filter f l) <= List.length (filter g l))%nat.
Proof.
  intros H. induction l as [|x l IH]; simpl; [lia|].
  destruct (f x) eqn:E.
  - rewrite (H x E). simpl. lia.
  - destruct (g x); simpl; lia.
Qed.

(** X20. The two endpoints agree: for a camp name and an equipment type
    without wildcards, every unit the demand check counts at the home camp
    is a row that the listing returns for the same names and the status
    [ReadyToUse]; the home count never exceeds the length of that listing. *)
Theorem check_demand_within_listing c n s e q r st res :
  Str.plain c = true -> Str.plain n = true ->
  snd (check_demand c n s e q r st) = inr res ->
  (Availability.available (Result.availability res)
   <= Z.of_nat (List.length
                  (list_equipment
                     (ListEquipment.mk None (Some n) (Some c) None
                        (Some "ReadyToUse") None None None None None None)
                     st)))%Z.
Proof.
  intros Hc Hn Hrun.
  destruct (check_demand_ok _ _ _ _ _ _ _ _ Hrun) as (home & Hh & Hres & Hlog).
  subst res. simpl. rewrite available_home_pattern_count.
  unfold pattern_count, count_if.
  destruct (list_equipment_filter
              (ListEquipment.mk None (Some n) (Some c) None
                 (Some "ReadyToUse") None None None None None None) st)
    as (f & -> & Hf).
  rewrite (Permutation_length (sort_perm Equipment.equipment_id Z.ltb _)).
  apply inj_le, filter_length_mono. intros x Hx.
  apply andb_true_iff in Hx as [Hx Ha].
  apply andb_true_iff in Hx as [Hxc Hxn].
  apply Hf. unfold accepts. simpl. repeat split; try discriminate.
  - intros y [= <-] _. rewrite ilike_substring by exact Hn.
    now apply ilike_plain_contains.
  - intros y [= <-] _. rewrite ilike_substring by exact Hc.
    now apply ilike_plain_contains.
  - intros y [= <-] _. now apply is_available_true in Ha as [Hs _].
Qed.

Lemma check_demand_within_listing_witness :
  (Availability.available (Result.availability result_b)
   <= Z.of_nat (List.length
                  (list_equipment
                     (ListEquipment.mk None (Some "Excavator") (Some "Camp1")
                        None (Some "ReadyToUse") None None None None None None)
                     store_b)))%Z.
Proof.
  apply (check_demand_within_listing "Camp1" "Excavator" d_2024_01_10
           d_2024_01_20 5 15 store_b result_b).
  - reflexivity.
  - reflexivity.
  - exact run_store_b.
Defined.
